(** * The secret annotator of the cloud-credential-operator

    A shallow embedding of
    [pkg/controller/secretannotator/secretannotator_controller.go] and of
    [utils.LoadInfrastructureName], followed by the properties of the
    reconciliation loop: which annotation is written on which path, which
    collaborators are called, and which error reaches the caller.

    The Go code talks to three outside parties: the cluster API (a
    [client.Client]), the AWS client builder and the two permission probes.
    They are parameters of the development.  Every call made to one of them
    is appended to a call log, so that statements such as "the passthrough
    probe is not invoked" or "exactly one write" can be expressed. *)

From Stdlib Require Import Strings.String Strings.Ascii Strings.Byte Lists.List Bool.Bool Lia.
From stdpp Require Import base option gmap strings list.

Local Open Scope string_scope.
Local Open Scope list_scope.

(** ** Constants of the package *)

Definition controllerName : string := "secretannotator".

Definition CloudCredSecretName : string := "aws-creds".
Definition CloudCredSecretNamespace : string := "kube-system".

Definition AnnotationKey : string := "cloudcredential.openshift.io/mode".

Definition MintAnnotation : string := "mint".
Definition PassthroughAnnotation : string := "passthrough".
Definition InsufficientAnnotation : string := "insufficient".

Definition AwsAccessKeyName : string := "aws_access_key_id".
Definition AwsSecretAccessKeyName : string := "aws_secret_access_key".

(** ** Errors

    A Go [error] is observed through its message.  [fmt.Errorf] with a
    format of the shape ["<context>: %v"] builds a NEW error value whose
    message is the context followed by the message of the argument. *)

Definition error : Type := string.

Definition Errorf (context : string) (err : error) : error :=
  context +:+ err.

(** A call that returns [(T, error)] in Go. *)
Inductive result (T : Type) : Type :=
| Ok (v : T)
| Err (err : error).
Arguments Ok {T} v.
Arguments Err {T} err.

(** ** Kubernetes objects *)

Record NamespacedName : Type := mkNamespacedName {
  nnNamespace : string;
  nnName : string
}.

(** The part of [metav1.ObjectMeta] the controller can observe.  A Go map
    may be [nil]: [None] stands for the nil map. *)
Record ObjectMeta : Type := mkObjectMeta {
  Name : string;
  Namespace : string;
  ResourceVersion : string;
  Labels : option (gmap string string);
  Annotations : option (gmap string string)
}.

(** [corev1.Secret].  Reading a key of a nil [Data] map and of an empty one
    both give [ok = false], so [Data] is a plain finite map. *)
Record Secret : Type := mkSecret {
  secretMeta : ObjectMeta;
  Data : gmap string (list byte);
  StringData : gmap string string;
  SecretType : string
}.

Definition GetName (m : ObjectMeta) : string := Name m.
Definition GetNamespace (m : ObjectMeta) : string := Namespace m.

Definition GetAnnotations (s : Secret) : option (gmap string string) :=
  Annotations (secretMeta s).

Definition SetAnnotations (s : Secret) (a : gmap string string) : Secret :=
  {| secretMeta :=
       {| Name := Name (secretMeta s);
          Namespace := Namespace (secretMeta s);
          ResourceVersion := ResourceVersion (secretMeta s);
          Labels := Labels (secretMeta s);
          Annotations := Some a |};
     Data := Data s;
     StringData := StringData s;
     SecretType := SecretType s |}.

(** [configv1.Infrastructure], of which only [Status.InfrastructureName]
    is read. *)
Record Infrastructure : Type := mkInfrastructure {
  InfrastructureName : string
}.

(** [credentials.Value] of the AWS SDK. *)
Record credentials_Value : Type := mkCredentials {
  AccessKeyID : string;
  SecretAccessKey : string;
  SessionToken : string;
  ProviderName : string
}.

(** [reconcile.Result]; the controller only ever returns the zero value. *)
Record reconcile_Result : Type := mkResult {
  Requeue : bool;
  RequeueAfter : nat
}.

Definition emptyResult : reconcile_Result :=
  {| Requeue := false; RequeueAfter := 0 |}.

(** ** The event filter *)

Definition cloudCredSecretObjectCheck (secret : ObjectMeta) : bool :=
  if String.eqb (GetNamespace secret) CloudCredSecretNamespace
     && String.eqb (GetName secret) CloudCredSecretName
  then true
  else false.

(** The events of controller-runtime, with the metadata of the objects. *)
Record CreateEvent : Type := mkCreateEvent { createMeta : ObjectMeta }.
Record DeleteEvent : Type := mkDeleteEvent {
  deleteMeta : ObjectMeta;
  DeleteStateUnknown : bool
}.
Record UpdateEvent : Type := mkUpdateEvent {
  MetaOld : ObjectMeta;
  MetaNew : ObjectMeta
}.

Record GenericEvent : Type := mkGenericEvent { genericMeta : ObjectMeta }.

(** [predicate.Funcs]: a nil function admits every event of its kind. *)
Record predicate_Funcs : Type := mkFuncs {
  CreateFunc : option (CreateEvent -> bool);
  DeleteFunc : option (DeleteEvent -> bool);
  UpdateFunc : option (UpdateEvent -> bool);
  GenericFunc : option (GenericEvent -> bool)
}.

Definition Funcs_Create (p : predicate_Funcs) (e : CreateEvent) : bool :=
  match CreateFunc p with Some f => f e | None => true end.
Definition Funcs_Delete (p : predicate_Funcs) (e : DeleteEvent) : bool :=
  match DeleteFunc p with Some f => f e | None => true end.
Definition Funcs_Update (p : predicate_Funcs) (e : UpdateEvent) : bool :=
  match UpdateFunc p with Some f => f e | None => true end.
Definition Funcs_Generic (p : predicate_Funcs) (e : GenericEvent) : bool :=
  match GenericFunc p with Some f => f e | None => true end.

(** The predicate [p] built in [add]; it sets no [GenericFunc]. *)
Definition add_predicate : predicate_Funcs :=
  {| UpdateFunc := Some (fun e => cloudCredSecretObjectCheck (MetaNew e));
     CreateFunc := Some (fun e => cloudCredSecretObjectCheck (createMeta e));
     DeleteFunc := Some (fun e => cloudCredSecretObjectCheck (deleteMeta e));
     GenericFunc := None |}.

(** A notification delivered by the watch on secrets ([source.Kind]): a
    create, an update or a delete. *)
Inductive Notification : Type :=
| Created (e : CreateEvent)
| Updated (e : UpdateEvent)
| Deleted (e : DeleteEvent).

(** The object a notification is about: the new one for an update. *)
Definition notified (n : Notification) : ObjectMeta :=
  match n with
  | Created e => createMeta e
  | Updated e => MetaNew e
  | Deleted e => deleteMeta e
  end.

(** What the watch does with [p]: it asks the function of the event's kind. *)
Definition admits (p : predicate_Funcs) (n : Notification) : bool :=
  match n with
  | Created e => Funcs_Create p e
  | Updated e => Funcs_Update p e
  | Deleted e => Funcs_Delete p e
  end.

(** ** Collaborators and the world they act on

    [K] is the state of the cluster as the API server holds it, [AwsClient]
    the handle returned by the client builder ([ccaws.Client]). *)

(** The receiver [ReconcileCloudCredSecret]: the embedded [client.Client]
    (its [Get] at the two types it is used at, and its [Update]) and the
    client builder.  A read does not change the cluster; an update returns
    the new cluster and its error. *)
Record ReconcileCloudCredSecret (K AwsClient : Type) : Type := mkReconciler {
  Get : NamespacedName -> K -> result Secret;
  GetInfrastructure : NamespacedName -> K -> result Infrastructure;
  Update : Secret -> K -> K * option error;
  AWSClientBuilder : credentials_Value -> string -> result AwsClient
}.
Arguments Get {K AwsClient} r key k.
Arguments GetInfrastructure {K AwsClient} r key k.
Arguments Update {K AwsClient} r obj k.
Arguments AWSClientBuilder {K AwsClient} r creds infraName.

(** One entry of the call log. *)
Inductive Call (AwsClient : Type) : Type :=
| CallGet (key : NamespacedName)
| CallGetInfrastructure (key : NamespacedName)
| CallUpdate (obj : Secret)
| CallAWSClientBuilder (creds : credentials_Value) (infraName : string)
| CallCheckCloudCredCreation (awsClient : AwsClient)
| CallCheckCloudCredPassthrough (awsClient : AwsClient).
Arguments CallGet {AwsClient} key.
Arguments CallGetInfrastructure {AwsClient} key.
Arguments CallUpdate {AwsClient} obj.
Arguments CallAWSClientBuilder {AwsClient} creds infraName.
Arguments CallCheckCloudCredCreation {AwsClient} awsClient.
Arguments CallCheckCloudCredPassthrough {AwsClient} awsClient.

(** The levels of the logrus logger that the controller uses. *)
Inductive Level : Type := LevelDebug | LevelInfo | LevelWarning | LevelError.

Record World (K AwsClient : Type) : Type := mkWorld {
  cluster : K;
  calls : list (Call AwsClient);
  logs : list (Level * string)
}.
Arguments mkWorld {K AwsClient} cluster calls logs.
Arguments cluster {K AwsClient} w.
Arguments calls {K AwsClient} w.
Arguments logs {K AwsClient} w.

(** ** A state monad over the world *)

Definition M (K AwsClient A : Type) : Type :=
  World K AwsClient -> A * World K AwsClient.

Definition ret {K AwsClient A} (a : A) : M K AwsClient A :=
  fun w => (a, w).

Definition bind {K AwsClient A B}
    (m : M K AwsClient A) (f : A -> M K AwsClient B) : M K AwsClient B :=
  fun w => let (a, w') := m w in f a w'.

Notation "x <- m ;; k" := (bind m (fun x => k))
  (at level 100, m at next level, right associativity).
Notation "m ;;; k" := (bind m (fun _ => k))
  (at level 100, right associativity).

Definition record {K AwsClient} (c : Call AwsClient) (w : World K AwsClient)
  : World K AwsClient :=
  mkWorld (cluster w) (calls w ++ [c]) (logs w).

(** A call to the logger.  [logs] holds the calls made to the logger: the
    level of the method called ([Debugf], [Info], [Warning], [Errorf]) and
    the message.  Which of them the logger emits is decided by the level
    the logger is set to, see [emitted]. *)
Definition logf {K AwsClient} (lvl : Level) (msg : string) : M K AwsClient unit :=
  fun w => (tt, mkWorld (cluster w) (calls w) (logs w ++ [(lvl, msg)])).

(** logrus numbers its levels (panic 0, fatal 1, error 2, warning 3, info 4,
    debug 5, trace 6) and emits an entry when the level of the logger is at
    least the level of the entry.  Its default level is info. *)
Definition rank (lvl : Level) : nat :=
  match lvl with
  | LevelError => 2
  | LevelWarning => 3
  | LevelInfo => 4
  | LevelDebug => 5
  end.

Definition enabled (loggerLevel : nat) (lvl : Level) : bool :=
  Nat.leb (rank lvl) loggerLevel.

(** What a logger set to [loggerLevel] emits of the calls made to it. *)
Definition emitted (loggerLevel : nat) (l : list (Level * string))
  : list (Level * string) :=
  List.filter (fun entry => enabled loggerLevel (fst entry)) l.

(** The calls made to the logger between two worlds. *)
Definition newLogs {K AwsClient} (w w' : World K AwsClient)
  : list (Level * string) :=
  drop (length (logs w)) (logs w').

(** ** What package [aws] takes from other packages

    The later layout of the controller (package [aws] under
    [secretannotator]) reads its constants from package [constants] and
    its probes from package [ccaws].  Neither is among the sources at
    hand: their values are the fields of this record. *)
Record AwsImports (AwsClient : Type) : Type := mkAwsImports {
  constants_ControllerName : string;
  constants_CloudCredSecretNamespace : string;
  constants_AnnotationKey : string;
  constants_MintAnnotation : string;
  constants_PassthroughAnnotation : string;
  constants_InsufficientAnnotation : string;
  ccaws_CheckCloudCredCreation : AwsClient -> bool * option error;
  ccaws_CheckCloudCredPassthrough : AwsClient -> bool * option error
}.
Arguments constants_ControllerName {AwsClient} a.
Arguments constants_CloudCredSecretNamespace {AwsClient} a.
Arguments constants_AnnotationKey {AwsClient} a.
Arguments constants_MintAnnotation {AwsClient} a.
Arguments constants_PassthroughAnnotation {AwsClient} a.
Arguments constants_InsufficientAnnotation {AwsClient} a.
Arguments ccaws_CheckCloudCredCreation {AwsClient} a awsClient.
Arguments ccaws_CheckCloudCredPassthrough {AwsClient} a awsClient.

(** Constants of package [aws]. *)
Definition AWSCloudCredSecretName : string := "aws-creds".

(** Constants of package [utils]. *)
Definition awsCredsSecretIDKey : string := "aws_access_key_id".
Definition awsCredsSecretAccessKey : string := "aws_secret_access_key".

(** [cloudCredSecretObjectCheck] of package [aws]. *)
Definition aws_cloudCredSecretObjectCheck {AwsClient}
    (imports : AwsImports AwsClient) (secret : ObjectMeta) : bool :=
  String.eqb (GetNamespace secret) (constants_CloudCredSecretNamespace imports)
  && String.eqb (GetName secret) AWSCloudCredSecretName.

(** The predicate [p] built in [Add] of package [aws]. *)
Definition aws_Add_predicate {AwsClient} (imports : AwsImports AwsClient)
  : predicate_Funcs :=
  {| UpdateFunc :=
       Some (fun e => aws_cloudCredSecretObjectCheck imports (MetaNew e));
     CreateFunc :=
       Some (fun e => aws_cloudCredSecretObjectCheck imports (createMeta e));
     DeleteFunc :=
       Some (fun e => aws_cloudCredSecretObjectCheck imports (deleteMeta e));
     GenericFunc := None |}.

(** ** Test doubles

    A cluster that stores secrets under (namespace, name), and a cloud
    client that carries the answers of its two probes.  The infrastructure
    lookup, the client builder and the update answer as they are told to. *)

Record FakeAws : Type := mkFakeAws {
  canMint : bool * option error;
  canPassthrough : bool * option error
}.

Definition FakeCluster : Type := gmap (string * string) Secret.

Definition fakeReconciler (infra : result Infrastructure)
    (built : result FakeAws) (updateErr : option error)
  : ReconcileCloudCredSecret FakeCluster FakeAws :=
  {| Get := fun key k =>
       match (k : gmap (string * string) Secret) !! (nnNamespace key, nnName key) with
       | Some s => Ok s
       | None => Err ("secrets " +:+ nnName key +:+ " not found")
       end;
     GetInfrastructure := fun _ _ => infra;
     Update := fun obj k =>
       match updateErr with
       | Some err => (k, Some err)
       | None =>
           (<[(Namespace (secretMeta obj), Name (secretMeta obj)) := obj]> k,
            None)
       end;
     AWSClientBuilder := fun _ _ => built |}.

Definition bytes_of (s : string) : list byte := list_byte_of_string s.

Definition awsCredsMeta : ObjectMeta :=
  {| Name := "aws-creds"; Namespace := "kube-system"; ResourceVersion := "1";
     Labels := None; Annotations := None |}.

(** The root secret with both keys. *)
Definition fullSecret : Secret :=
  {| secretMeta := awsCredsMeta;
     Data := {[ "aws_access_key_id" := bytes_of "AKIA";
                "aws_secret_access_key" := bytes_of "s3cr3t" ]};
     StringData := ∅;
     SecretType := "Opaque" |}.

(** The root secret without the secret access key. *)
Definition halfSecret : Secret :=
  {| secretMeta := awsCredsMeta;
     Data := {[ "aws_access_key_id" := bytes_of "AKIA" ]};
     StringData := ∅;
     SecretType := "Opaque" |}.


(** The root secret as an installer left it, already annotated. *)
Definition labelledSecret : Secret :=
  {| secretMeta :=
       {| Name := "aws-creds"; Namespace := "kube-system";
          ResourceVersion := "7";
          Labels := Some {[ "app" := "installer" ]};
          Annotations :=
            Some {[ "owner" := "installer";
                    "cloudcredential.openshift.io/mode" := "mint" ]} |};
     Data := {[ "aws_access_key_id" := bytes_of "AKIA";
                "aws_secret_access_key" := bytes_of "s3cr3t" ]};
     StringData := ∅;
     SecretType := "Opaque" |}.


(** Some other secret of the same namespace. *)
Definition otherMeta : ObjectMeta :=
  {| Name := "pull-secret"; Namespace := "kube-system"; ResourceVersion := "3";
     Labels := None; Annotations := None |}.

Definition clusterWith (s : Secret) : FakeCluster :=
  {[ (Namespace (secretMeta s), Name (secretMeta s)) := s ]}.

Definition startWith (s : Secret) : World FakeCluster FakeAws :=
  mkWorld (clusterWith s) [] [].

Definition rootRequest : NamespacedName :=
  mkNamespacedName "kube-system" "aws-creds".

Definition testInfra : result Infrastructure :=
  Ok {| InfrastructureName := "test-cluster-x7k2p" |}.

(** Cloud clients: one that may mint and pass through, one that may only
    pass through, one that may do neither, and one whose creation probe is
    refused. *)
Definition mintAndPassthrough : FakeAws := mkFakeAws (true, None) (true, None).
Definition passthroughOnly : FakeAws := mkFakeAws (false, None) (true, None).
Definition neither : FakeAws := mkFakeAws (false, None) (false, None).
Definition mintDenied : FakeAws :=
  mkFakeAws (false, Some "AccessDenied") (true, None).

Definition conflict : error := "Conflict: the object has been modified".

(** A cluster whose updates succeed, and one whose updates are refused. *)
Definition steady (aws : FakeAws) : ReconcileCloudCredSecret FakeCluster FakeAws :=
  fakeReconciler testInfra (Ok aws) None.
Definition conflicting (aws : FakeAws)
  : ReconcileCloudCredSecret FakeCluster FakeAws :=
  fakeReconciler testInfra (Ok aws) (Some conflict).

(** What package [aws] imports when package [constants] keeps the values
    of the first layout and the probes are those of the fake client. *)
Definition firstLayoutImports : AwsImports FakeAws :=
  {| constants_ControllerName := "secretannotator";
     constants_CloudCredSecretNamespace := "kube-system";
     constants_AnnotationKey := "cloudcredential.openshift.io/mode";
     constants_MintAnnotation := "mint";
     constants_PassthroughAnnotation := "passthrough";
     constants_InsufficientAnnotation := "insufficient";
     ccaws_CheckCloudCredCreation := canMint;
     ccaws_CheckCloudCredPassthrough := canPassthrough |}.

(** [s] ends with [suffix]. *)
Fixpoint endsWith (suffix s : string) : bool :=
  if String.eqb s suffix then true
  else match s with
       | EmptyString => false
       | String _ s' => endsWith suffix s'
       end.

Section Controller.
Context {K AwsClient : Type}.

(** [utils.CheckCloudCredCreation] and [utils.CheckCloudCredPassthrough]:
    the two probes, each returning Go's pair [(bool, error)]. *)
Variable CheckCloudCredCreation : AwsClient -> bool * option error.
Variable CheckCloudCredPassthrough : AwsClient -> bool * option error.

Variable r : ReconcileCloudCredSecret K AwsClient.

Local Abbreviation Mon := (M K AwsClient).

(** *** The calls to the collaborators, each one logged *)

Definition r_Get (key : NamespacedName) : Mon (result Secret) :=
  fun w => (Get r key (cluster w), record (CallGet key) w).

Definition c_GetInfrastructure (key : NamespacedName)
  : Mon (result Infrastructure) :=
  fun w => (GetInfrastructure r key (cluster w),
            record (CallGetInfrastructure key) w).

Definition r_Update (obj : Secret) : Mon (option error) :=
  fun w => let (k', err) := Update r obj (cluster w) in
           (err, mkWorld k' (calls w ++ [CallUpdate obj]) (logs w)).

Definition r_AWSClientBuilder (creds : credentials_Value) (infraName : string)
  : Mon (result AwsClient) :=
  fun w => (AWSClientBuilder r creds infraName,
            record (CallAWSClientBuilder creds infraName) w).

Definition utils_CheckCloudCredCreation (awsClient : AwsClient)
  : Mon (bool * option error) :=
  fun w => (CheckCloudCredCreation awsClient,
            record (CallCheckCloudCredCreation awsClient) w).

Definition utils_CheckCloudCredPassthrough (awsClient : AwsClient)
  : Mon (bool * option error) :=
  fun w => (CheckCloudCredPassthrough awsClient,
            record (CallCheckCloudCredPassthrough awsClient) w).

(** *** [utils.LoadInfrastructureName] *)

Definition LoadInfrastructureName : Mon (result string) :=
  res <- c_GetInfrastructure (mkNamespacedName "" "cluster") ;;
  match res with
  | Err err =>
      logf LevelError "error loading Infrastructure config 'cluster'" ;;;
      ret (Err err)
  | Ok infra =>
      logf LevelDebug
        ("Loaded infrastructure name: " +:+ InfrastructureName infra) ;;;
      ret (Ok (InfrastructureName infra))
  end.

(** *** [updateSecretAnnotations]

    The Go function changes the secret behind the pointer; the changed
    secret is returned next to the error of the update. *)

Definition updateSecretAnnotations (secret : Secret) (value : string)
  : Mon (Secret * option error) :=
  let secretAnnotations := GetAnnotations secret in
  let secretAnnotations :=
    match secretAnnotations with
    | None => ∅
    | Some m => m
    end in
  let secretAnnotations := <[AnnotationKey := value]> secretAnnotations in
  let secret := SetAnnotations secret secretAnnotations in
  err <- r_Update secret ;;
  ret (secret, err).

(** [return r.updateSecretAnnotations(secret, value)] *)
Definition return_updateSecretAnnotations (secret : Secret) (value : string)
  : Mon (option error) :=
  res <- updateSecretAnnotations secret value ;;
  ret (snd res).

(** *** [validateCloudCredsSecret] *)

Definition validateCloudCredsSecret (secret : Secret) : Mon (option error) :=
  match Data secret !! AwsAccessKeyName with
  | None =>
      logf LevelError
        "Couldn't fetch key containing AWS_ACCESS_KEY_ID from cloud cred secret" ;;;
      return_updateSecretAnnotations secret InsufficientAnnotation
  | Some accessKey =>
  match Data secret !! AwsSecretAccessKeyName with
  | None =>
      logf LevelError
        "Couldn't fetch key containing AWS_SECRET_ACCESS_KEY from cloud cred secret" ;;;
      return_updateSecretAnnotations secret InsufficientAnnotation
  | Some secretKey =>
  res <- LoadInfrastructureName ;;
  match res with
  | Err err => ret (Some err)
  | Ok infraName =>
  let creds :=
    {| AccessKeyID := string_of_list_byte accessKey;
       SecretAccessKey := string_of_list_byte secretKey;
       SessionToken := "";
       ProviderName := "" |} in
  res <- r_AWSClientBuilder creds infraName ;;
  match res with
  | Err err => ret (Some (Errorf "error creating aws client: " err))
  | Ok awsClient =>
  (* Can we mint new creds? *)
  res <- utils_CheckCloudCredCreation awsClient ;;
  match res with
  | (_, Some err) =>
      updateSecretAnnotations secret InsufficientAnnotation ;;;
      ret (Some (Errorf "failed checking create cloud creds: " err))
  | (cloudCheckResult, None) =>
  if cloudCheckResult then
    logf LevelInfo "Verified cloud creds can be used for minting new creds" ;;;
    return_updateSecretAnnotations secret MintAnnotation
  else
  (* Else, can we just pass through the current creds? *)
  res <- utils_CheckCloudCredPassthrough awsClient ;;
  match res with
  | (_, Some err) =>
      updateSecretAnnotations secret InsufficientAnnotation ;;;
      ret (Some (Errorf "failed checking passthrough cloud creds: " err))
  | (cloudCheckResult, None) =>
  if cloudCheckResult then
    logf LevelInfo "Verified cloud creds can be used as-is (passthrough)" ;;;
    return_updateSecretAnnotations secret PassthroughAnnotation
  else
    (* Else, these creds aren't presently useful *)
    logf LevelWarning
      "Cloud creds unable to be used for either minting or passthrough" ;;;
    return_updateSecretAnnotations secret InsufficientAnnotation
  end end end end end end.

(** *** [Reconcile] *)

Definition Reconcile (request : NamespacedName)
  : Mon (reconcile_Result * option error) :=
  logf LevelInfo "validating cloud cred secret" ;;;
  res <- r_Get request ;;
  match res with
  | Err err =>
      logf LevelDebug ("secret not found: " +:+ err) ;;;
      ret (emptyResult, Some err)
  | Ok secret =>
      err <- validateCloudCredsSecret secret ;;
      match err with
      | Some err =>
          logf LevelError
            ("error while validating cloud credentials: " +:+ err) ;;;
          ret (emptyResult, Some err)
      | None => ret (emptyResult, None)
      end
  end.

(** *** [utils.LoadCredsFromSecret]

    [kubeClient] is the client of [r]. *)

Definition LoadCredsFromSecret (namespace secretName : string)
  : Mon (result credentials_Value) :=
  res <- r_Get (mkNamespacedName namespace secretName) ;;
  match res with
  | Err err => ret (Err err)
  | Ok secret =>
  match Data secret !! awsCredsSecretIDKey with
  | None =>
      ret (Err ("AWS credentials secret " +:+ secretName
                +:+ " did not contain key " +:+ awsCredsSecretIDKey))
  | Some accessKeyID =>
  match Data secret !! awsCredsSecretAccessKey with
  | None =>
      ret (Err ("AWS credentials secret " +:+ secretName
                +:+ " did not contain key " +:+ awsCredsSecretAccessKey))
  | Some secretAccessKey =>
      let creds :=
        {| AccessKeyID := string_of_list_byte accessKeyID;
           SecretAccessKey := string_of_list_byte secretAccessKey;
           SessionToken := "";
           ProviderName := "" |} in
      ret (Ok creds)
  end end end.

(** *** Package [aws]: the same controller in its later layout *)

Section AwsPackage.
Variable imports : AwsImports AwsClient.

Definition ccaws_call_CheckCloudCredCreation (awsClient : AwsClient)
  : Mon (bool * option error) :=
  fun w => (ccaws_CheckCloudCredCreation imports awsClient,
            record (CallCheckCloudCredCreation awsClient) w).

Definition ccaws_call_CheckCloudCredPassthrough (awsClient : AwsClient)
  : Mon (bool * option error) :=
  fun w => (ccaws_CheckCloudCredPassthrough imports awsClient,
            record (CallCheckCloudCredPassthrough awsClient) w).

Definition aws_updateSecretAnnotations (secret : Secret) (value : string)
  : Mon (Secret * option error) :=
  let secretAnnotations := GetAnnotations secret in
  let secretAnnotations :=
    match secretAnnotations with
    | None => ∅
    | Some m => m
    end in
  let secretAnnotations :=
    <[constants_AnnotationKey imports := value]> secretAnnotations in
  let secret := SetAnnotations secret secretAnnotations in
  err <- r_Update secret ;;
  ret (secret, err).

(** [return r.updateSecretAnnotations(secret, value)] *)
Definition aws_return_updateSecretAnnotations (secret : Secret) (value : string)
  : Mon (option error) :=
  res <- aws_updateSecretAnnotations secret value ;;
  ret (snd res).

Definition aws_validateCloudCredsSecret (secret : Secret)
  : Mon (option error) :=
  match Data secret !! AwsAccessKeyName with
  | None =>
      logf LevelError
        "Couldn't fetch key containing AWS_ACCESS_KEY_ID from cloud cred secret" ;;;
      aws_return_updateSecretAnnotations secret
        (constants_InsufficientAnnotation imports)
  | Some accessKey =>
  match Data secret !! AwsSecretAccessKeyName with
  | None =>
      logf LevelError
        "Couldn't fetch key containing AWS_SECRET_ACCESS_KEY from cloud cred secret" ;;;
      aws_return_updateSecretAnnotations secret
        (constants_InsufficientAnnotation imports)
  | Some secretKey =>
  res <- LoadInfrastructureName ;;
  match res with
  | Err err => ret (Some err)
  | Ok infraName =>
  let creds :=
    {| AccessKeyID := string_of_list_byte accessKey;
       SecretAccessKey := string_of_list_byte secretKey;
       SessionToken := "";
       ProviderName := "" |} in
  res <- r_AWSClientBuilder creds infraName ;;
  match res with
  | Err err => ret (Some (Errorf "error creating aws client: " err))
  | Ok awsClient =>
  (* Can we mint new creds? *)
  res <- ccaws_call_CheckCloudCredCreation awsClient ;;
  match res with
  | (_, Some err) =>
      aws_updateSecretAnnotations secret
        (constants_InsufficientAnnotation imports) ;;;
      ret (Some (Errorf "failed checking create cloud creds: " err))
  | (cloudCheckResult, None) =>
  if cloudCheckResult then
    logf LevelInfo "Verified cloud creds can be used for minting new creds" ;;;
    aws_return_updateSecretAnnotations secret (constants_MintAnnotation imports)
  else
  (* Else, can we just pass through the current creds? *)
  res <- ccaws_call_CheckCloudCredPassthrough awsClient ;;
  match res with
  | (_, Some err) =>
      aws_updateSecretAnnotations secret
        (constants_InsufficientAnnotation imports) ;;;
      ret (Some (Errorf "failed checking passthrough cloud creds: " err))
  | (cloudCheckResult, None) =>
  if cloudCheckResult then
    logf LevelInfo "Verified cloud creds can be used as-is (passthrough)" ;;;
    aws_return_updateSecretAnnotations secret
      (constants_PassthroughAnnotation imports)
  else
    (* Else, these creds aren't presently useful *)
    logf LevelWarning
      "Cloud creds unable to be used for either minting or passthrough" ;;;
    aws_return_updateSecretAnnotations secret
      (constants_InsufficientAnnotation imports)
  end end end end end end.

Definition aws_Reconcile (request : NamespacedName)
  : Mon (reconcile_Result * option error) :=
  logf LevelInfo "validating cloud cred secret" ;;;
  res <- r_Get request ;;
  match res with
  | Err err =>
      logf LevelDebug ("secret not found: " +:+ err) ;;;
      ret (emptyResult, Some err)
  | Ok secret =>
      err <- aws_validateCloudCredsSecret secret ;;
      match err with
      | Some err =>
          logf LevelError
            ("error while validating cloud credentials: " +:+ err) ;;;
          ret (emptyResult, Some err)
      | None => ret (emptyResult, None)
      end
  end.

End AwsPackage.

(** *** Vocabulary of the statements *)

(** The secret with the mode annotation set to [value]: the object that
    [updateSecretAnnotations] hands to [Update]. *)
Definition annotated (secret : Secret) (value : string) : Secret :=
  SetAnnotations secret
    (<[AnnotationKey := value]>
       match GetAnnotations secret with
       | None => ∅
       | Some m => m
       end).

(** The annotation an object carries under [key], if any. *)
Definition annotation (obj : Secret) (key : string) : option string :=
  match GetAnnotations obj with
  | Some m => m !! key
  | None => None
  end.

(** The mode annotation carried by an object, if any. *)
Definition modeOf (obj : Secret) : option string :=
  annotation obj AnnotationKey.

(** The calls that were added to the log between two worlds. *)
Definition newCalls (w w' : World K AwsClient) : list (Call AwsClient) :=
  drop (length (calls w)) (calls w').

(** The objects handed to [Update], in order. *)
Definition writes (l : list (Call AwsClient)) : list Secret :=
  omap (fun c => match c with CallUpdate obj => Some obj | _ => None end) l.

Definition isPassthroughProbe (c : Call AwsClient) : bool :=
  match c with
  | CallCheckCloudCredPassthrough _ => true
  | _ => false
  end.

Definition isCreationProbe (c : Call AwsClient) : bool :=
  match c with
  | CallCheckCloudCredCreation _ => true
  | _ => false
  end.

Definition isProbe (c : Call AwsClient) : bool :=
  match c with
  | CallCheckCloudCredCreation _
  | CallCheckCloudCredPassthrough _ => true
  | _ => false
  end.

(** The error a logged call came back with, in a cluster in state [k]. *)
Definition failure (k : K) (c : Call AwsClient) : option error :=
  match c with
  | CallGet key =>
      match Get r key k with Err err => Some err | Ok _ => None end
  | CallGetInfrastructure key =>
      match GetInfrastructure r key k with Err err => Some err | Ok _ => None end
  | CallUpdate obj => snd (Update r obj k)
  | CallAWSClientBuilder creds infraName =>
      match AWSClientBuilder r creds infraName with
      | Err err => Some err
      | Ok _ => None
      end
  | CallCheckCloudCredCreation awsClient =>
      snd (CheckCloudCredCreation awsClient)
  | CallCheckCloudCredPassthrough awsClient =>
      snd (CheckCloudCredPassthrough awsClient)
  end.

(** [err'] reports [err]: it is [err] itself, or [err] behind a context. *)
Definition reports (err err' : error) : Prop :=
  err' = err \/ exists context, err' = Errorf context err.

Local Abbreviation credsOf accessKey secretKey :=
  {| AccessKeyID := string_of_list_byte accessKey;
     SecretAccessKey := string_of_list_byte secretKey;
     SessionToken := "";
     ProviderName := "" |}.

(** The request reaches the probes: the secret is fetched, holds both
    keys, the infrastructure name is found and the client is built. *)
Inductive Probed (request : NamespacedName) (k : K)
    (secret : Secret) (awsClient : AwsClient) : Prop :=
| probed (accessKey secretKey : list byte) (infra : Infrastructure) :
    Get r request k = Ok secret ->
    Data secret !! AwsAccessKeyName = Some accessKey ->
    Data secret !! AwsSecretAccessKeyName = Some secretKey ->
    GetInfrastructure r (mkNamespacedName "" "cluster") k = Ok infra ->
    AWSClientBuilder r (credsOf accessKey secretKey) (InfrastructureName infra)
      = Ok awsClient ->
    Probed request k secret awsClient.

(** A probe comes back with an error: the creation probe, or, after the
    creation probe has answered false, the passthrough probe.  [context]
    is the text the controller puts before the error. *)
Inductive ProbeFails (awsClient : AwsClient) : string -> error -> Prop :=
| creation_probe_fails b err :
    CheckCloudCredCreation awsClient = (b, Some err) ->
    ProbeFails awsClient "failed checking create cloud creds: " err
| passthrough_probe_fails b err :
    CheckCloudCredCreation awsClient = (false, None) ->
    CheckCloudCredPassthrough awsClient = (b, Some err) ->
    ProbeFails awsClient "failed checking passthrough cloud creds: " err.

(** The ways a reconciliation can go, named after what decides it. *)
Inductive Case : Type :=
| NotFound | InfraFailure | ClientFailure
| MissingField | MintTrue | PassthroughTrue | BothFalse | ProbeError.

(** The first three fail before any classification. *)
Definition terminal (c : Case) : bool :=
  match c with
  | NotFound | InfraFailure | ClientFailure => false
  | MissingField | MintTrue | PassthroughTrue | BothFalse | ProbeError => true
  end.

(** Which case a request is in, told by the answers of the collaborators
    in cluster state [k]. *)
Inductive Scenario (request : NamespacedName) (k : K) : Case -> Prop :=
| sc_not_found err :
    Get r request k = Err err ->
    Scenario request k NotFound
| sc_missing_field secret :
    Get r request k = Ok secret ->
    Data secret !! AwsAccessKeyName = None
    \/ Data secret !! AwsSecretAccessKeyName = None ->
    Scenario request k MissingField
| sc_infra_failure secret accessKey secretKey err :
    Get r request k = Ok secret ->
    Data secret !! AwsAccessKeyName = Some accessKey ->
    Data secret !! AwsSecretAccessKeyName = Some secretKey ->
    GetInfrastructure r (mkNamespacedName "" "cluster") k = Err err ->
    Scenario request k InfraFailure
| sc_client_failure secret accessKey secretKey infra err :
    Get r request k = Ok secret ->
    Data secret !! AwsAccessKeyName = Some accessKey ->
    Data secret !! AwsSecretAccessKeyName = Some secretKey ->
    GetInfrastructure r (mkNamespacedName "" "cluster") k = Ok infra ->
    AWSClientBuilder r (credsOf accessKey secretKey) (InfrastructureName infra)
      = Err err ->
    Scenario request k ClientFailure
| sc_probe_error secret awsClient context err :
    Probed request k secret awsClient ->
    ProbeFails awsClient context err ->
    Scenario request k ProbeError
| sc_mint_true secret awsClient :
    Probed request k secret awsClient ->
    CheckCloudCredCreation awsClient = (true, None) ->
    Scenario request k MintTrue
| sc_passthrough_true secret awsClient :
    Probed request k secret awsClient ->
    CheckCloudCredCreation awsClient = (false, None) ->
    CheckCloudCredPassthrough awsClient = (true, None) ->
    Scenario request k PassthroughTrue
| sc_both_false secret awsClient :
    Probed request k secret awsClient ->
    CheckCloudCredCreation awsClient = (false, None) ->
    CheckCloudCredPassthrough awsClient = (false, None) ->
    Scenario request k BothFalse.

(** The mode each case writes; none for the cases that fail before any
    classification. *)
Definition verdict (c : Case) : option string :=
  match c with
  | NotFound | InfraFailure | ClientFailure => None
  | MintTrue => Some MintAnnotation
  | PassthroughTrue => Some PassthroughAnnotation
  | MissingField | BothFalse | ProbeError => Some InsufficientAnnotation
  end.

(** ** Properties *)

(** *** Symbolic execution *)

Ltac unfold_controller :=
  unfold Reconcile, validateCloudCredsSecret, LoadInfrastructureName,
    return_updateSecretAnnotations, updateSecretAnnotations,
    r_Get, c_GetInfrastructure, r_Update, r_AWSClientBuilder,
    utils_CheckCloudCredCreation, utils_CheckCloudCredPassthrough,
    bind, ret, logf, record, annotated.

(** Replace every collaborator call by the answer the context gives. *)
Ltac answers :=
  repeat match goal with
         | H : ?call = _ |- context [?call] => rewrite H; cbn
         end.

Ltac split_update :=
  repeat match goal with
         | |- context [Update r ?obj ?k] =>
             let k' := fresh "k'" in
             let uerr := fresh "uerr" in
             let Hupd := fresh "Hupd" in
             destruct (Update r obj k) as [k' [uerr | ]] eqn:Hupd; cbn
         end.

Ltac tidy_calls :=
  unfold newCalls; cbn; rewrite <- ?app_assoc; cbn;
  rewrite ?drop_app_length; cbn.

Ltac run := unfold_controller; cbn; answers; split_update; tidy_calls.

Ltac open_scenario :=
  repeat match goal with
         | H : Probed _ _ _ _ |- _ => destruct H
         | H : ProbeFails _ _ _ |- _ => destruct H
         | H : _ \/ _ |- _ => destruct H
         end;
  (* the second key is missing: the first one may be there or not *)
  try match goal with
      | H : Data ?secret !! AwsSecretAccessKeyName = None |- _ =>
          destruct (Data secret !! AwsAccessKeyName) eqn:?
      end.

(** Which entry of an explicit call list a member is. *)
Ltac pick Hin :=
  repeat (apply elem_of_cons in Hin;
          destruct Hin as [Hin | Hin];
          [ try discriminate Hin; try (inversion Hin; subst; clear Hin) | ]);
  try (apply elem_of_nil in Hin; destruct Hin).

Ltac member := solve [repeat first [apply list_elem_of_here | apply list_elem_of_further]].

Lemma newCalls_app (w w' : World K AwsClient) (d : list (Call AwsClient)) :
  calls w' = calls w ++ d -> newCalls w w' = d.
Proof. intros H. unfold newCalls. rewrite H. apply drop_app_length. Qed.

Lemma modeOf_annotated (secret : Secret) (value : string) :
  modeOf (annotated secret value) = Some value.
Proof. unfold modeOf, annotation, annotated. cbn. apply lookup_insert_eq. Qed.

Lemma length_append (s1 s2 : string) :
  String.length (s1 +:+ s2) = String.length s1 + String.length s2.
Proof.
  induction s1 as [|a s1 IH]; [reflexivity | ].
  change (S (String.length (s1 +:+ s2))
          = S (String.length s1 + String.length s2)).
  now rewrite IH.
Qed.

(** An error behind a context is not the error itself. *)
Lemma Errorf_fresh (context : string) (err : error) :
  context <> "" -> Errorf context err <> err.
Proof.
  intros Hne Heq. apply (f_equal String.length) in Heq.
  unfold Errorf in Heq. rewrite length_append in Heq.
  destruct context as [|a context]; [congruence | cbn in Heq; lia].
Qed.

(** Every request is in one of the cases. *)
Lemma Scenario_total (request : NamespacedName) (k : K) :
  exists c, Scenario request k c.
Proof.
  destruct (Get r request k) as [secret | err] eqn:Hget;
    [ | eexists; eapply sc_not_found; eassumption ].
  destruct (Data secret !! AwsAccessKeyName) as [accessKey | ] eqn:Ha;
    [ | eexists; eapply sc_missing_field; eauto ].
  destruct (Data secret !! AwsSecretAccessKeyName) as [secretKey | ] eqn:Hs;
    [ | eexists; eapply sc_missing_field; eauto ].
  destruct (GetInfrastructure r (mkNamespacedName "" "cluster") k)
    as [infra | err] eqn:Hinfra;
    [ | eexists; eapply sc_infra_failure; eassumption ].
  destruct (AWSClientBuilder r (credsOf accessKey secretKey)
              (InfrastructureName infra)) as [awsClient | err] eqn:Hbuild;
    [ | eexists; eapply sc_client_failure; eassumption ].
  assert (Hp : Probed request k secret awsClient)
    by (econstructor; eassumption).
  destruct (CheckCloudCredCreation awsClient) as [[|] [err|]] eqn:Hmint;
    try (eexists; eapply sc_probe_error;
         [ eassumption | eapply creation_probe_fails; eassumption ]);
    [ eexists; eapply sc_mint_true; eassumption | ].
  destruct (CheckCloudCredPassthrough awsClient) as [[|] [err|]] eqn:Hpass;
    try (eexists; eapply sc_probe_error;
         [ eassumption | eapply passthrough_probe_fails; eassumption ]).
  - eexists; eapply sc_passthrough_true; eassumption.
  - eexists; eapply sc_both_false; eassumption.
Qed.

(** *** The event filter *)

Lemma cloudCredSecretObjectCheck_spec (m : ObjectMeta) :
  cloudCredSecretObjectCheck m = true <->
  Namespace m = "kube-system" /\ Name m = "aws-creds".
Proof.
  unfold cloudCredSecretObjectCheck, GetNamespace, GetName,
    CloudCredSecretNamespace, CloudCredSecretName.
  destruct (String.eqb (Namespace m) "kube-system") eqn:Hns;
    destruct (String.eqb (Name m) "aws-creds") eqn:Hn; cbn;
    rewrite ?String.eqb_eq, ?String.eqb_neq in *;
    split; intros H; try discriminate; try tauto.
Qed.

(** C7: for a create, an update and a delete notification alike, the
    filter registered in [add] answers with the one pure check
    [cloudCredSecretObjectCheck] on the notified object, and it answers
    true exactly when the namespace of that object is kube-system and its
    name is aws-creds. *)
Theorem event_filter_admits_exactly_the_root_secret (n : Notification) :
  admits add_predicate n = cloudCredSecretObjectCheck (notified n)
  /\ (admits add_predicate n = true <->
      Namespace (notified n) = "kube-system"
      /\ Name (notified n) = "aws-creds").
Proof.
  assert (Hsame :
    admits add_predicate n = cloudCredSecretObjectCheck (notified n))
    by (destruct n; reflexivity).
  split; [exact Hsame | ].
  rewrite Hsame. apply cloudCredSecretObjectCheck_spec.
Qed.

(** *** The annotation write *)

(** C8: [updateSecretAnnotations] reads the annotation map of the secret,
    takes the empty map when there is none, sets the one key
    [AnnotationKey] to the given value and hands the whole object to
    [Update], once; every other annotation and every other field of the
    object is as it was. *)
Theorem updateSecretAnnotations_read_modify_write
    (secret : Secret) (value : string) (w : World K AwsClient) :
  let obj := annotated secret value in
  updateSecretAnnotations secret value w
    = ((obj, snd (Update r obj (cluster w))),
       mkWorld (fst (Update r obj (cluster w)))
               (calls w ++ [CallUpdate obj]) (logs w))
  /\ GetAnnotations obj
     = Some (<[AnnotationKey := value]> (default ∅ (GetAnnotations secret)))
  /\ (GetAnnotations secret = None ->
      GetAnnotations obj = Some {[ AnnotationKey := value ]})
  /\ annotation obj AnnotationKey = Some value
  /\ (forall key, key <> AnnotationKey ->
      annotation obj key = annotation secret key)
  /\ Name (secretMeta obj) = Name (secretMeta secret)
  /\ Namespace (secretMeta obj) = Namespace (secretMeta secret)
  /\ ResourceVersion (secretMeta obj) = ResourceVersion (secretMeta secret)
  /\ Labels (secretMeta obj) = Labels (secretMeta secret)
  /\ Data obj = Data secret
  /\ StringData obj = StringData secret
  /\ SecretType obj = SecretType secret.
Proof.
  intros obj. subst obj.
  split.
  { unfold updateSecretAnnotations, r_Update, bind, ret, annotated.
    destruct (Update r _ (cluster w)) as [k' uerr]. reflexivity. }
  split.
  { unfold annotated. cbn. destruct (GetAnnotations secret); reflexivity. }
  split.
  { intros Hnil. unfold annotated. cbn. rewrite Hnil. reflexivity. }
  split.
  { apply modeOf_annotated. }
  split.
  { intros key Hkey. unfold annotation, annotated. cbn.
    rewrite lookup_insert_ne by congruence.
    destruct (GetAnnotations secret) as [m | ]; [reflexivity | ].
    apply lookup_empty. }
  repeat split.
Qed.

(** *** Reconciliation, path by path *)

(** C2, as the code has it: when the fetched secret lacks one of the two
    keys, the reconciliation calls nothing but the fetch and one update
    that carries the mode insufficient (no infrastructure lookup, no
    client construction, no probe), and it returns what that update
    returns: no error when the update succeeds, the error of the update
    otherwise. *)
Theorem missing_field_writes_insufficient
    (request : NamespacedName) (w : World K AwsClient) (secret : Secret) :
  Get r request (cluster w) = Ok secret ->
  Data secret !! AwsAccessKeyName = None
  \/ Data secret !! AwsSecretAccessKeyName = None ->
  let out := Reconcile request w in
  let obj := annotated secret InsufficientAnnotation in
  newCalls w (snd out) = [CallGet request; CallUpdate obj]
  /\ modeOf obj = Some "insufficient"
  /\ cluster (snd out) = fst (Update r obj (cluster w))
  /\ fst out = (emptyResult, snd (Update r obj (cluster w)))
  /\ (snd (Update r obj (cluster w)) = None ->
      fst out = (emptyResult, None)).
Proof.
  intros Hget Hmissing out obj.
  assert (Hrun :
    newCalls w (snd out) = [CallGet request; CallUpdate obj]
    /\ cluster (snd out) = fst (Update r obj (cluster w))
    /\ fst out = (emptyResult, snd (Update r obj (cluster w)))).
  { subst out obj. destruct Hmissing as [Ha | Hs].
    - run; auto.
    - destruct (Data secret !! AwsAccessKeyName) eqn:Ha;
        run; auto. }
  destruct Hrun as (Hcalls & Hcluster & Hres).
  repeat split; try assumption.
  - apply modeOf_annotated.
  - intros Hok. rewrite Hres, Hok. reflexivity.
Qed.

(** C1, as the code has it: when the creation probe answers true without
    an error, the reconciliation makes one update, which carries the mode
    mint, never calls the passthrough probe, whatever that probe would
    answer, and returns what the update returns: no error when the update
    succeeds, the error of the update otherwise. *)
Theorem mint_true_writes_mint
    (request : NamespacedName) (w : World K AwsClient)
    (secret : Secret) (awsClient : AwsClient) :
  Probed request (cluster w) secret awsClient ->
  CheckCloudCredCreation awsClient = (true, None) ->
  let out := Reconcile request w in
  let obj := annotated secret MintAnnotation in
  (exists creds infraName,
     newCalls w (snd out)
     = [CallGet request;
        CallGetInfrastructure (mkNamespacedName "" "cluster");
        CallAWSClientBuilder creds infraName;
        CallCheckCloudCredCreation awsClient;
        CallUpdate obj])
  /\ writes (newCalls w (snd out)) = [obj]
  /\ modeOf obj = Some "mint"
  /\ Forall (fun c => isPassthroughProbe c = false) (newCalls w (snd out))
  /\ cluster (snd out) = fst (Update r obj (cluster w))
  /\ fst out = (emptyResult, snd (Update r obj (cluster w)))
  /\ (snd (Update r obj (cluster w)) = None ->
      fst out = (emptyResult, None)).
Proof.
  intros [accessKey secretKey infra Hget Ha Hs Hinfra Hbuild] Hmint out obj.
  assert (Hrun :
    newCalls w (snd out)
    = [CallGet request;
       CallGetInfrastructure (mkNamespacedName "" "cluster");
       CallAWSClientBuilder (credsOf accessKey secretKey)
         (InfrastructureName infra);
       CallCheckCloudCredCreation awsClient;
       CallUpdate obj]
    /\ cluster (snd out) = fst (Update r obj (cluster w))
    /\ fst out = (emptyResult, snd (Update r obj (cluster w))))
    by (subst out obj; run; auto).
  destruct Hrun as (Hcalls & Hcluster & Hres).
  split; [eauto | ].
  rewrite Hcalls.
  split; [reflexivity | ].
  split; [apply modeOf_annotated | ].
  split; [repeat constructor | ].
  split; [assumption | ].
  split; [assumption | ].
  intros Hok. rewrite Hres, Hok. reflexivity.
Qed.

(** C3, as the code has it: when a probe comes back with an error (the
    creation probe, or the passthrough probe after the creation probe
    answered false), the reconciliation makes one update, which carries
    the mode insufficient, and returns a new error: the text of the
    context followed by the text of the probe error.  That error is never
    the probe error itself. *)
Theorem probe_error_writes_insufficient
    (request : NamespacedName) (w : World K AwsClient)
    (secret : Secret) (awsClient : AwsClient)
    (context : string) (err : error) :
  Probed request (cluster w) secret awsClient ->
  ProbeFails awsClient context err ->
  let out := Reconcile request w in
  let obj := annotated secret InsufficientAnnotation in
  writes (newCalls w (snd out)) = [obj]
  /\ modeOf obj = Some "insufficient"
  /\ cluster (snd out) = fst (Update r obj (cluster w))
  /\ fst out = (emptyResult, Some (Errorf context err))
  /\ Errorf context err <> err.
Proof.
  intros [accessKey secretKey infra Hget Ha Hs Hinfra Hbuild] Hfails out obj.
  assert (Hctx : context <> "") by (destruct Hfails; discriminate).
  assert (Hrun :
    writes (newCalls w (snd out)) = [obj]
    /\ cluster (snd out) = fst (Update r obj (cluster w))
    /\ fst out = (emptyResult, Some (Errorf context err))).
  { subst out obj.
    destruct Hfails as [b err Hmint | b err Hmint Hpass]; run; auto. }
  destruct Hrun as (Hwrites & Hcluster & Hres).
  repeat split; try assumption.
  - apply modeOf_annotated.
  - apply Errorf_fresh, Hctx.
Qed.

(** X1: when the creation probe answers false and the passthrough probe
    answers true, both without an error, the reconciliation makes one
    update, which carries the mode passthrough, and returns what the update
    returns. *)
Theorem passthrough_true_writes_passthrough
    (request : NamespacedName) (w : World K AwsClient)
    (secret : Secret) (awsClient : AwsClient) :
  Probed request (cluster w) secret awsClient ->
  CheckCloudCredCreation awsClient = (false, None) ->
  CheckCloudCredPassthrough awsClient = (true, None) ->
  let out := Reconcile request w in
  let obj := annotated secret PassthroughAnnotation in
  writes (newCalls w (snd out)) = [obj]
  /\ modeOf obj = Some "passthrough"
  /\ cluster (snd out) = fst (Update r obj (cluster w))
  /\ fst out = (emptyResult, snd (Update r obj (cluster w))).
Proof.
  intros [accessKey secretKey infra Hget Ha Hs Hinfra Hbuild]
    Hmint Hpass out obj.
  assert (Hrun :
    writes (newCalls w (snd out)) = [obj]
    /\ cluster (snd out) = fst (Update r obj (cluster w))
    /\ fst out = (emptyResult, snd (Update r obj (cluster w))))
    by (subst out obj; run; auto).
  destruct Hrun as (Hwrites & Hcluster & Hres).
  repeat split; try assumption.
  apply modeOf_annotated.
Qed.

(** C5, as the code has it: when both probes answer false without an
    error, the reconciliation makes one update, which carries the mode
    insufficient, and returns what the update returns: no error when the
    update succeeds, the error of the update otherwise. *)
Theorem both_false_writes_insufficient
    (request : NamespacedName) (w : World K AwsClient)
    (secret : Secret) (awsClient : AwsClient) :
  Probed request (cluster w) secret awsClient ->
  CheckCloudCredCreation awsClient = (false, None) ->
  CheckCloudCredPassthrough awsClient = (false, None) ->
  let out := Reconcile request w in
  let obj := annotated secret InsufficientAnnotation in
  writes (newCalls w (snd out)) = [obj]
  /\ modeOf obj = Some "insufficient"
  /\ cluster (snd out) = fst (Update r obj (cluster w))
  /\ fst out = (emptyResult, snd (Update r obj (cluster w)))
  /\ (snd (Update r obj (cluster w)) = None ->
      fst out = (emptyResult, None)).
Proof.
  intros [accessKey secretKey infra Hget Ha Hs Hinfra Hbuild]
    Hmint Hpass out obj.
  assert (Hrun :
    writes (newCalls w (snd out)) = [obj]
    /\ cluster (snd out) = fst (Update r obj (cluster w))
    /\ fst out = (emptyResult, snd (Update r obj (cluster w))))
    by (subst out obj; run; auto).
  destruct Hrun as (Hwrites & Hcluster & Hres).
  repeat split; try assumption.
  - apply modeOf_annotated.
  - intros Hok. rewrite Hres, Hok. reflexivity.
Qed.

(** *** Reconciliation, all paths *)

(** What a reconciliation hands to [Update], case by case. *)
Lemma Reconcile_writes
    (request : NamespacedName) (w : World K AwsClient) (c : Case) :
  Scenario request (cluster w) c ->
  writes (newCalls w (snd (Reconcile request w)))
  = match verdict c, Get r request (cluster w) with
    | Some value, Ok secret => [annotated secret value]
    | _, _ => []
    end.
Proof.
  intros Hsc. destruct Hsc; open_scenario; cbn [verdict];
    run; reflexivity.
Qed.

(** Only an update changes the cluster. *)
Lemma Reconcile_cluster
    (request : NamespacedName) (w : World K AwsClient) :
  writes (newCalls w (snd (Reconcile request w))) = [] ->
  cluster (snd (Reconcile request w)) = cluster w.
Proof.
  destruct (Scenario_total request (cluster w)) as [c Hsc].
  destruct Hsc; open_scenario;
    run; intros Hw; solve [reflexivity | discriminate Hw].
Qed.

(** What the cluster is after a reconciliation, case by case: the cluster
    the one update returned, or the cluster as it was. *)
Lemma Reconcile_cluster_after
    (request : NamespacedName) (w : World K AwsClient) (c : Case) :
  Scenario request (cluster w) c ->
  cluster (snd (Reconcile request w))
  = match verdict c, Get r request (cluster w) with
    | Some value, Ok secret =>
        fst (Update r (annotated secret value) (cluster w))
    | _, _ => cluster w
    end.
Proof.
  intros Hsc. destruct Hsc; open_scenario; cbn [verdict];
    run; reflexivity.
Qed.

(** C6: a reconciliation that reaches a classification (a missing field,
    creation probe true, passthrough probe true, both probes false, a
    probe error) makes exactly one update, and that update is the
    annotation write: the object it hands over is the fetched secret with
    the mode of the case under the mode key, and the cluster afterwards is
    the one this update returned.  A reconciliation that fails before (the
    fetch, the infrastructure lookup or the client construction fails)
    makes no update, leaves the cluster as it was, and returns an error
    that reports the failure of a call it made. *)
Theorem one_write_when_classified_none_before
    (request : NamespacedName) (w : World K AwsClient) (c : Case) :
  Scenario request (cluster w) c ->
  let out := Reconcile request w in
  if terminal c
  then exists secret value,
         Get r request (cluster w) = Ok secret
         /\ verdict c = Some value
         /\ writes (newCalls w (snd out)) = [annotated secret value]
         /\ length (writes (newCalls w (snd out))) = 1
         /\ annotation (annotated secret value)
              "cloudcredential.openshift.io/mode" = Some value
         /\ cluster (snd out)
            = fst (Update r (annotated secret value) (cluster w))
  else writes (newCalls w (snd out)) = []
       /\ cluster (snd out) = cluster w
       /\ exists call err err',
            call ∈ newCalls w (snd out)
            /\ failure (cluster w) call = Some err
            /\ fst out = (emptyResult, Some err')
            /\ reports err err'.
Proof.
  intros Hsc out.
  pose proof (Reconcile_writes request w c Hsc) as Hw. fold out in Hw.
  pose proof (Reconcile_cluster_after request w c Hsc) as Hk. fold out in Hk.
  assert (Hclassified : forall secret value,
            Get r request (cluster w) = Ok secret ->
            verdict c = Some value ->
            exists secret value,
              Get r request (cluster w) = Ok secret
              /\ verdict c = Some value
              /\ writes (newCalls w (snd out)) = [annotated secret value]
              /\ length (writes (newCalls w (snd out))) = 1
              /\ annotation (annotated secret value)
                   "cloudcredential.openshift.io/mode" = Some value
              /\ cluster (snd out)
                 = fst (Update r (annotated secret value) (cluster w))).
  { intros secret value Hget Hverdict.
    rewrite Hverdict, Hget in Hw, Hk.
    exists secret, value.
    split; [exact Hget | ].
    split; [exact Hverdict | ].
    split; [exact Hw | ].
    split; [rewrite Hw; reflexivity | ].
    split; [apply modeOf_annotated | exact Hk]. }
  destruct Hsc as
    [ err Hget
    | secret Hget Hmissing
    | secret accessKey secretKey err Hget Ha Hs Hinfra
    | secret accessKey secretKey infra err Hget Ha Hs Hinfra Hbuild
    | secret awsClient context err [] Hfails
    | secret awsClient [] Hmint
    | secret awsClient [] Hmint Hpass
    | secret awsClient [] Hmint Hpass ];
    cbn [terminal];
    try (eapply Hclassified; [eassumption | reflexivity]);
    cbn [verdict] in Hw.
  - (* the fetch fails *)
    split; [exact Hw | ].
    split; [apply Reconcile_cluster; exact Hw | ].
    exists (CallGet request), err, err. subst out.
    run.
    repeat split; [apply list_elem_of_singleton; reflexivity | now left].
  - (* the infrastructure lookup fails *)
    split; [exact Hw | ].
    split; [apply Reconcile_cluster; exact Hw | ].
    exists (CallGetInfrastructure (mkNamespacedName "" "cluster")), err, err.
    subst out. run.
    repeat split; [ | now left].
    apply list_elem_of_further, list_elem_of_here.
  - (* the client construction fails *)
    split; [exact Hw | ].
    split; [apply Reconcile_cluster; exact Hw | ].
    exists (CallAWSClientBuilder (credsOf accessKey secretKey)
              (InfrastructureName infra)),
      err, (Errorf "error creating aws client: " err).
    subst out. run.
    repeat split; [ | right; eexists; reflexivity].
    do 2 apply list_elem_of_further. apply list_elem_of_here.
Qed.

(** C9: every object that a reconciliation hands to [Update] carries,
    under the key cloudcredential.openshift.io/mode, one of the three
    strings mint, passthrough and insufficient; the key is never absent
    and holds nothing else. *)
Theorem written_mode_is_one_of_three
    (request : NamespacedName) (w : World K AwsClient) (obj : Secret) :
  obj ∈ writes (newCalls w (snd (Reconcile request w))) ->
  annotation obj "cloudcredential.openshift.io/mode" = Some "mint"
  \/ annotation obj "cloudcredential.openshift.io/mode" = Some "passthrough"
  \/ annotation obj "cloudcredential.openshift.io/mode" = Some "insufficient".
Proof.
  destruct (Scenario_total request (cluster w)) as [c Hsc].
  rewrite (Reconcile_writes request w c Hsc).
  destruct (verdict c) as [value | ] eqn:Hv;
    [ | intros H; inversion H ].
  destruct (Get r request (cluster w)) as [secret | err];
    [ | intros H; inversion H ].
  intros ->%list_elem_of_singleton.
  change (annotation (annotated secret value) "cloudcredential.openshift.io/mode")
    with (modeOf (annotated secret value)).
  rewrite modeOf_annotated.
  destruct c; inversion Hv; subst value; auto.
Qed.


(** Where the error of a failed call goes.  The reconciliation returns an
    error, and that error reports the failed call (as it is, or behind a
    context) on every path but one: in the two probe-error branches the
    result of [updateSecretAnnotations] is not looked at, so the error of
    that update reaches the caller nowhere, and what is returned reports
    the probe only. *)
Lemma failed_call_returns_an_error
    (request : NamespacedName) (w : World K AwsClient)
    (call : Call AwsClient) (err : error) :
  let out := Reconcile request w in
  call ∈ newCalls w (snd out) ->
  failure (cluster w) call = Some err ->
  exists err',
    fst out = (emptyResult, Some err')
    /\ (reports err err'
        \/ (exists obj, call = CallUpdate obj)
           /\ exists probe perr,
                probe ∈ newCalls w (snd out)
                /\ isProbe probe = true
                /\ failure (cluster w) probe = Some perr
                /\ reports perr err').
Proof.
  intros out. subst out.
  destruct (Scenario_total request (cluster w)) as [c Hsc].
  destruct Hsc; open_scenario; run; intros Hin Hfail.
  all: repeat (apply elem_of_cons in Hin; destruct Hin as [-> | Hin]).
  all: try (apply elem_of_nil in Hin; contradiction).
  all: cbn in Hfail.
  all: repeat match goal with
              | H : ?call = _, Hf : context [?call] |- _ =>
                  rewrite H in Hf; cbn in Hf
              end.
  all: try discriminate Hfail.
  all: inversion Hfail; subst; clear Hfail.
  all: eexists; split; [reflexivity | ].
  all: try (left; left; reflexivity).
  all: try (left; right; eexists; reflexivity).
  (* what is left: the update made after a probe error has failed *)
  all: right; split; [eexists; reflexivity | ].
  - match goal with
    | H : CheckCloudCredCreation awsClient = (_, Some ?perr) |- _ =>
        exists (CallCheckCloudCredCreation awsClient), perr
    end.
    split; [repeat first [apply list_elem_of_here | apply list_elem_of_further] | ].
    split; [reflexivity | ].
    split; [cbn; answers; reflexivity | right; eexists; reflexivity].
  - match goal with
    | H : CheckCloudCredPassthrough awsClient = (_, Some ?perr) |- _ =>
        exists (CallCheckCloudCredPassthrough awsClient), perr
    end.
    split; [repeat first [apply list_elem_of_here | apply list_elem_of_further] | ].
    split; [reflexivity | ].
    split; [cbn; answers; reflexivity | right; eexists; reflexivity].
Qed.

Lemma endsWith_refl (s : string) : endsWith s s = true.
Proof. destruct s; cbn [endsWith]; rewrite String.eqb_refl; reflexivity. Qed.

(** An error that reports [err] ends with the text of [err]. *)
Lemma reports_endsWith (err err' : error) :
  reports err err' -> endsWith err err' = true.
Proof.
  intros [-> | [context ->]]; [apply endsWith_refl | ].
  unfold Errorf. induction context as [ | a context IH].
  - apply endsWith_refl.
  - change (String a context +:+ err) with (String a (context +:+ err)).
    cbn [endsWith]. rewrite IH.
    destruct (String.eqb (String a (context +:+ err)) err); reflexivity.
Qed.

(** ** Further properties of the reconciliation *)

(** X2: the fetch of the requested object is always the first call; a
    reconciliation makes at most six calls, at most one to each probe; and
    an update, when there is one, is the last call: nothing is asked of a
    collaborator after the annotation is written. *)
Theorem fetch_is_first_update_is_last
    (request : NamespacedName) (w : World K AwsClient) :
  let made := newCalls w (snd (Reconcile request w)) in
  head made = Some (CallGet request)
  /\ length made <= 6
  /\ length (List.filter isCreationProbe made) <= 1
  /\ length (List.filter isPassthroughProbe made) <= 1
  /\ (forall obj, CallUpdate obj ∈ made -> last made = Some (CallUpdate obj)).
Proof.
  intros made. subst made.
  destruct (Scenario_total request (cluster w)) as [c Hsc].
  destruct Hsc; open_scenario; run.
  all: repeat split; try reflexivity; try (cbn; lia).
  all: intros obj Hin; pick Hin; reflexivity.
Qed.

(** X3: the passthrough probe is called only on a client on which the
    creation probe was called before and answered false without an
    error. *)
Theorem passthrough_probe_only_after_creation_said_no
    (request : NamespacedName) (w : World K AwsClient) (awsClient : AwsClient) :
  CallCheckCloudCredPassthrough awsClient
    ∈ newCalls w (snd (Reconcile request w)) ->
  CheckCloudCredCreation awsClient = (false, None)
  /\ exists before after,
       newCalls w (snd (Reconcile request w))
       = before ++ CallCheckCloudCredCreation awsClient
                :: CallCheckCloudCredPassthrough awsClient :: after.
Proof.
  destruct (Scenario_total request (cluster w)) as [c Hsc].
  destruct Hsc; open_scenario; run; intros Hin; pick Hin.
  all: split; [assumption | ].
  all: eexists [_; _; _], _; reflexivity.
Qed.

(** X4: the client builder is only ever called with the two fields of the
    fetched secret, as strings, an empty session token, and the
    infrastructure name that the lookup returned; and the creation probe
    is only called on the client that this call built. *)
Theorem client_is_built_from_the_fetched_secret
    (request : NamespacedName) (w : World K AwsClient) :
  let made := newCalls w (snd (Reconcile request w)) in
  (forall creds infraName,
     CallAWSClientBuilder creds infraName ∈ made ->
     exists secret accessKey secretKey infra,
       Get r request (cluster w) = Ok secret
       /\ Data secret !! AwsAccessKeyName = Some accessKey
       /\ Data secret !! AwsSecretAccessKeyName = Some secretKey
       /\ GetInfrastructure r (mkNamespacedName "" "cluster") (cluster w)
          = Ok infra
       /\ creds = {| AccessKeyID := string_of_list_byte accessKey;
                     SecretAccessKey := string_of_list_byte secretKey;
                     SessionToken := "";
                     ProviderName := "" |}
       /\ infraName = InfrastructureName infra)
  /\ (forall awsClient,
        CallCheckCloudCredCreation awsClient ∈ made ->
        exists secret, Probed request (cluster w) secret awsClient).
Proof.
  intros made. subst made.
  destruct (Scenario_total request (cluster w)) as [c Hsc].
  destruct Hsc; open_scenario; run.
  all: split; [intros creds infraName Hin | intros awsClient' Hin]; pick Hin.
  all: try (eexists _, _, _, _; repeat split; eassumption).
  all: eexists; econstructor; eassumption.
Qed.

(** X5: the only object a reconciliation ever hands to [Update] is the
    secret it fetched: same name and namespace, same data, labels, type and
    resource version, and the same annotations under every key but the
    mode key. *)
Theorem writes_only_the_fetched_secret
    (request : NamespacedName) (w : World K AwsClient) (obj : Secret) :
  obj ∈ writes (newCalls w (snd (Reconcile request w))) ->
  exists secret,
    Get r request (cluster w) = Ok secret
    /\ Name (secretMeta obj) = Name (secretMeta secret)
    /\ Namespace (secretMeta obj) = Namespace (secretMeta secret)
    /\ ResourceVersion (secretMeta obj) = ResourceVersion (secretMeta secret)
    /\ Labels (secretMeta obj) = Labels (secretMeta secret)
    /\ Data obj = Data secret
    /\ StringData obj = StringData secret
    /\ SecretType obj = SecretType secret
    /\ forall key, key <> AnnotationKey ->
         annotation obj key = annotation secret key.
Proof.
  destruct (Scenario_total request (cluster w)) as [c Hsc].
  rewrite (Reconcile_writes request w c Hsc).
  destruct (verdict c) as [value | ]; [ | intros H; inversion H ].
  destruct (Get r request (cluster w)) as [secret | err];
    [ | intros H; inversion H ].
  intros ->%list_elem_of_singleton.
  exists secret. repeat split.
  intros key Hkey. unfold annotation, annotated. cbn.
  rewrite lookup_insert_ne by congruence.
  destruct (GetAnnotations secret); [reflexivity | apply lookup_empty].
Qed.

(** X6: a reconciliation returns no error exactly when it made an update,
    that update succeeded, and no probe it called came back with an error.
    So success tells the caller that the mode has been handed to the
    cluster and accepted. *)
Theorem success_means_the_mode_was_accepted
    (request : NamespacedName) (w : World K AwsClient) :
  let out := Reconcile request w in
  snd (fst out) = None <->
  exists obj,
    writes (newCalls w (snd out)) = [obj]
    /\ Update r obj (cluster w) = (cluster (snd out), None)
    /\ forall call,
         call ∈ newCalls w (snd out) -> isProbe call = true ->
         failure (cluster w) call = None.
Proof.
  intros out. subst out.
  destruct (Scenario_total request (cluster w)) as [c Hsc].
  destruct Hsc; open_scenario; run.
  all: split;
    [ intros Hnone; try discriminate Hnone
    | intros (obj & Hwrites & Hupdate & Hprobes) ].
  (* success: the update is there, and the probes answered *)
  all: try (eexists; split; [reflexivity | ]; split; [eassumption | ];
            intros call Hin Hprobe; pick Hin; try discriminate Hprobe;
            cbn; answers; reflexivity).
  (* no update at all *)
  all: try discriminate Hwrites.
  all: try reflexivity.
  (* the update was refused *)
  all: try (inversion Hwrites; subst obj;
            match goal with
            | Hupd : Update r ?o ?k = _, Hu : Update r ?o ?k = _ |- _ =>
                rewrite Hupd in Hu; discriminate Hu
            end).
  (* a probe failed *)
  all: exfalso.
  all: match goal with
       | H : CheckCloudCredPassthrough ?c = (_, Some _) |- _ =>
           assert (Hno : failure (cluster w) (CallCheckCloudCredPassthrough c)
                         = None)
             by (apply Hprobes; [member | reflexivity]);
           cbn in Hno; rewrite H in Hno; discriminate Hno
       | H : CheckCloudCredCreation ?c = (_, Some _) |- _ =>
           assert (Hno : failure (cluster w) (CallCheckCloudCredCreation c)
                         = None)
             by (apply Hprobes; [member | reflexivity]);
           cbn in Hno; rewrite H in Hno; discriminate Hno
       end.
Qed.

(** X7: [Reconcile] always returns the zero [reconcile.Result] (it never
    asks for a requeue itself) and its first call to the logger announces
    the validation.  When it returns an error, its last call to the logger
    carries that error.  For an error of the validation the call is
    [Errorf], so a logger whose level enables errors emits it as its last
    line.  For an error of the fetch the call is [Debugf]: a logger below
    the debug level (the default of logrus is info) emits nothing of this
    reconciliation but the announcement, and the error is in no line. *)
Theorem returned_error_and_the_logger
    (request : NamespacedName) (w : World K AwsClient) :
  let out := Reconcile request w in
  let handed := newLogs w (snd out) in
  fst (fst out) = emptyResult
  /\ head handed = Some (LevelInfo, "validating cloud cred secret")
  /\ forall err,
       snd (fst out) = Some err ->
       match Get r request (cluster w) with
       | Err _ =>
           handed = [(LevelInfo, "validating cloud cred secret");
                     (LevelDebug, "secret not found: " +:+ err)]
           /\ (forall loggerLevel,
                 5 <= loggerLevel ->
                 last (emitted loggerLevel handed)
                 = Some (LevelDebug, "secret not found: " +:+ err))
           /\ (forall loggerLevel,
                 loggerLevel < 5 ->
                 emitted loggerLevel handed
                 = emitted loggerLevel
                     [(LevelInfo, "validating cloud cred secret")])
       | Ok _ =>
           last handed
           = Some (LevelError,
                   "error while validating cloud credentials: " +:+ err)
           /\ (forall loggerLevel,
                 2 <= loggerLevel ->
                 last (emitted loggerLevel handed)
                 = Some (LevelError,
                         "error while validating cloud credentials: " +:+ err))
       end.
Proof.
  intros out handed. subst out handed. unfold newLogs.
  destruct (Scenario_total request (cluster w)) as [c Hsc].
  destruct Hsc; open_scenario; run.
  all: split; [reflexivity | ].
  all: split; [reflexivity | ].
  all: intros err' Herr; try discriminate Herr.
  all: inversion Herr; subst; clear Herr.
  all: repeat split; try reflexivity.
  all: intros loggerLevel Hlevel.
  (* the level tests only look at the first six levels *)
  all: do 6 (try (destruct loggerLevel as [ | loggerLevel];
                  [ solve [reflexivity | exfalso; lia] | ])).
  all: solve [reflexivity | exfalso; lia].
Qed.

(** *** Writing the annotation again *)

(** X8: the last value wins.  Writing a mode on the secret that an earlier
    write of any mode left behind hands to [Update] the same object as
    writing that mode on the original secret. *)
Theorem updateSecretAnnotations_last_value_wins
    (secret : Secret) (value value' : string) (w w' : World K AwsClient) :
  let once := fst (fst (updateSecretAnnotations secret value w)) in
  fst (fst (updateSecretAnnotations once value' w'))
  = fst (fst (updateSecretAnnotations secret value' w))
  /\ calls (snd (updateSecretAnnotations once value' w'))
     = calls w'
       ++ [CallUpdate (fst (fst (updateSecretAnnotations secret value' w)))].
Proof.
  intros once. subst once.
  unfold updateSecretAnnotations, r_Update, bind, ret.
  repeat match goal with
         | |- context [Update r ?obj ?k] => destruct (Update r obj k)
         end.
  cbn. unfold SetAnnotations. cbn.
  rewrite insert_insert_eq. split; reflexivity.
Qed.

(** X9: when the secret already carries the mode, the object handed to
    [Update] is the secret itself, unchanged, and the update is still
    made: there is no short cut for an annotation that is already
    right. *)
Theorem updateSecretAnnotations_same_value_writes_the_secret_back
    (secret : Secret) (value : string) (w : World K AwsClient) :
  annotation secret AnnotationKey = Some value ->
  fst (fst (updateSecretAnnotations secret value w)) = secret
  /\ calls (snd (updateSecretAnnotations secret value w))
     = calls w ++ [CallUpdate secret].
Proof.
  intros Hmode.
  assert (Hsame : annotated secret value = secret).
  { destruct secret as [[name namespace version labels annotations] data sd ty].
    unfold annotation, annotated, SetAnnotations, GetAnnotations in *.
    cbn in *. destruct annotations as [m | ]; [ | discriminate Hmode].
    rewrite insert_id by exact Hmode. reflexivity. }
  unfold updateSecretAnnotations, r_Update, bind, ret.
  fold (annotated secret value). rewrite Hsame.
  destruct (Update r secret (cluster w)). split; reflexivity.
Qed.


(** ** [utils.LoadCredsFromSecret] *)

(** X11: the errors of [LoadCredsFromSecret].  The error of the fetch is
    returned as it is; a secret without the access key id is refused with
    a message that names the secret and that key, whether or not the
    secret access key is there; a secret with the id but without the
    secret access key is refused with a message that names this key.  In
    every case the function makes one call, the fetch, and leaves the
    cluster as it was. *)
Theorem LoadCredsFromSecret_errors
    (namespace secretName : string) (w : World K AwsClient) :
  let key := mkNamespacedName namespace secretName in
  let out := LoadCredsFromSecret namespace secretName w in
  snd out = record (CallGet key) w
  /\ (forall err, Get r key (cluster w) = Err err -> fst out = Err err)
  /\ (forall secret,
        Get r key (cluster w) = Ok secret ->
        Data secret !! "aws_access_key_id" = None ->
        fst out
        = Err ("AWS credentials secret " +:+ secretName
               +:+ " did not contain key aws_access_key_id"))
  /\ (forall secret,
        Get r key (cluster w) = Ok secret ->
        is_Some (Data secret !! "aws_access_key_id") ->
        Data secret !! "aws_secret_access_key" = None ->
        fst out
        = Err ("AWS credentials secret " +:+ secretName
               +:+ " did not contain key aws_secret_access_key")).
Proof.
  intros key out. subst key out.
  unfold LoadCredsFromSecret, r_Get, bind, ret,
    awsCredsSecretIDKey, awsCredsSecretAccessKey.
  cbn.
  split.
  { destruct (Get r _ (cluster w)) as [secret | err]; [ | reflexivity].
    destruct (Data secret !! "aws_access_key_id"); [ | reflexivity].
    destruct (Data secret !! "aws_secret_access_key"); reflexivity. }
  split; [intros err Hget; rewrite Hget; reflexivity | ].
  split.
  - intros secret Hget Hid. rewrite Hget, Hid. reflexivity.
  - intros secret Hget [accessKeyID Hid] Hkey. rewrite Hget, Hid, Hkey.
    reflexivity.
Qed.

(** X12: the credentials that [LoadCredsFromSecret] returns are the two
    fields of the fetched secret, byte for byte: turning the two strings
    back into bytes gives the stored values.  The session token is
    empty. *)
Theorem LoadCredsFromSecret_returns_the_stored_bytes
    (namespace secretName : string) (w : World K AwsClient)
    (creds : credentials_Value) :
  fst (LoadCredsFromSecret namespace secretName w) = Ok creds ->
  exists secret,
    Get r (mkNamespacedName namespace secretName) (cluster w) = Ok secret
    /\ Data secret !! "aws_access_key_id"
       = Some (list_byte_of_string (AccessKeyID creds))
    /\ Data secret !! "aws_secret_access_key"
       = Some (list_byte_of_string (SecretAccessKey creds))
    /\ SessionToken creds = ""
    /\ ProviderName creds = "".
Proof.
  unfold LoadCredsFromSecret, r_Get, bind, ret,
    awsCredsSecretIDKey, awsCredsSecretAccessKey.
  cbn.
  destruct (Get r _ (cluster w)) as [secret | err]; [ | discriminate].
  destruct (Data secret !! "aws_access_key_id") as [accessKeyID | ] eqn:Hid;
    [ | discriminate].
  destruct (Data secret !! "aws_secret_access_key")
    as [secretAccessKey | ] eqn:Hkey; [ | discriminate].
  cbn [fst]. intros Hcreds. injection Hcreds as <-.
  cbn [AccessKeyID SecretAccessKey SessionToken ProviderName].
  exists secret.
  rewrite !list_byte_of_string_of_list_byte. repeat split; assumption.
Qed.

(** X13: [LoadCredsFromSecret] and the annotator read the same secret the
    same way.  The credentials the loader returns for the requested secret
    are the only ones the annotator ever hands to the client builder; and
    the loader refuses a fetched secret exactly when the annotator marks
    it insufficient without any lookup or probe. *)
Theorem LoadCredsFromSecret_agrees_with_the_annotator
    (request : NamespacedName) (w : World K AwsClient) :
  let load :=
    fst (LoadCredsFromSecret (nnNamespace request) (nnName request) w) in
  let made := newCalls w (snd (Reconcile request w)) in
  (forall creds,
     load = Ok creds ->
     forall creds' infraName,
       CallAWSClientBuilder creds' infraName ∈ made -> creds' = creds)
  /\ (forall secret,
        Get r request (cluster w) = Ok secret ->
        ((exists err, load = Err err) <->
         made = [CallGet request;
                 CallUpdate (annotated secret InsufficientAnnotation)])).
Proof.
  destruct request as [namespace name].
  intros load made. subst load made.
  destruct (Scenario_total (mkNamespacedName namespace name) (cluster w))
    as [c Hsc].
  unfold LoadCredsFromSecret.
  change awsCredsSecretIDKey with AwsAccessKeyName.
  change awsCredsSecretAccessKey with AwsSecretAccessKeyName.
  destruct Hsc; open_scenario; run.
  all: split;
    [ intros creds Hload creds' infraName Hin; pick Hin;
      try (injection Hload as <-; reflexivity)
    | intros secret' Hget';
      first
        [ discriminate Hget'
        | injection Hget' as <-;
          split;
          [ intros [err' Hload]; first [discriminate Hload | reflexivity]
          | intros Hmade;
            first [discriminate Hmade | eexists; reflexivity] ] ] ].
Qed.

(** ** Package [aws] *)

(** X14: the filter of package [aws] admits a create, update or delete
    notification exactly when the notified object is named aws-creds and
    lives in the namespace that package [constants] names; when that
    namespace is kube-system it decides every notification as the filter
    of the first layout does. *)
Theorem aws_filter_admits_exactly_its_secret
    (imports : AwsImports AwsClient) (n : Notification) :
  (admits (aws_Add_predicate imports) n = true <->
   Namespace (notified n) = constants_CloudCredSecretNamespace imports
   /\ Name (notified n) = "aws-creds")
  /\ (constants_CloudCredSecretNamespace imports = "kube-system" ->
      admits (aws_Add_predicate imports) n = admits add_predicate n).
Proof.
  assert (Hcheck :
    admits (aws_Add_predicate imports) n
    = aws_cloudCredSecretObjectCheck imports (notified n))
    by (destruct n; reflexivity).
  split.
  - rewrite Hcheck.
    unfold aws_cloudCredSecretObjectCheck, GetNamespace, GetName,
      AWSCloudCredSecretName.
    rewrite andb_true_iff, !String.eqb_eq. reflexivity.
  - intros Hns. rewrite Hcheck.
    assert (Hold : admits add_predicate n
                   = cloudCredSecretObjectCheck (notified n))
      by (destruct n; reflexivity).
    rewrite Hold.
    unfold aws_cloudCredSecretObjectCheck, cloudCredSecretObjectCheck,
      AWSCloudCredSecretName, CloudCredSecretName, CloudCredSecretNamespace.
    rewrite Hns.
    destruct (String.eqb (GetNamespace (notified n)) "kube-system"
              && String.eqb (GetName (notified n)) "aws-creds");
      reflexivity.
Qed.

(** X15: the controller of package [aws] is the controller of the first
    layout.  When package [constants] holds the annotation key and the
    three modes of the first layout, and the probes of package [ccaws]
    answer as those of package [utils], [Reconcile] of package [aws]
    returns the same result and leaves the same cluster, the same calls
    and the same log lines, for every request and every world. *)
Theorem aws_Reconcile_is_Reconcile (imports : AwsImports AwsClient) :
  constants_AnnotationKey imports = AnnotationKey ->
  constants_MintAnnotation imports = MintAnnotation ->
  constants_PassthroughAnnotation imports = PassthroughAnnotation ->
  constants_InsufficientAnnotation imports = InsufficientAnnotation ->
  (forall awsClient,
     ccaws_CheckCloudCredCreation imports awsClient
     = CheckCloudCredCreation awsClient) ->
  (forall awsClient,
     ccaws_CheckCloudCredPassthrough imports awsClient
     = CheckCloudCredPassthrough awsClient) ->
  forall request w, aws_Reconcile imports request w = Reconcile request w.
Proof.
  intros Hkey Hmint Hpass Hinsufficient Hcreation Hpassthrough request w.
  unfold aws_Reconcile, aws_validateCloudCredsSecret,
    aws_return_updateSecretAnnotations, aws_updateSecretAnnotations,
    ccaws_call_CheckCloudCredCreation, ccaws_call_CheckCloudCredPassthrough.
  unfold Reconcile, validateCloudCredsSecret,
    return_updateSecretAnnotations, updateSecretAnnotations,
    utils_CheckCloudCredCreation, utils_CheckCloudCredPassthrough.
  rewrite Hkey, Hmint, Hpass, Hinsufficient.
  unfold bind, r_Get, logf. cbn.
  destruct (Get r request (cluster w)) as [secret | err]; [ | reflexivity].
  destruct (Data secret !! AwsAccessKeyName); [ | reflexivity].
  destruct (Data secret !! AwsSecretAccessKeyName); [ | reflexivity].
  unfold LoadInfrastructureName, c_GetInfrastructure, bind. cbn.
  destruct (GetInfrastructure r _ (cluster w)); [ | reflexivity].
  unfold r_AWSClientBuilder, logf, ret. cbn.
  destruct (AWSClientBuilder r _ _) as [awsClient | err]; [ | reflexivity].
  cbn. rewrite Hcreation, Hpassthrough. reflexivity.
Qed.

(** X16: a failed call never ends in success.  Whenever a call that a
    reconciliation made (the fetch, the infrastructure lookup, the client
    construction, a probe or an update) came back with an error, the
    reconciliation returns an error. *)
Theorem failed_call_never_gives_success
    (request : NamespacedName) (w : World K AwsClient)
    (call : Call AwsClient) (err : error) :
  call ∈ newCalls w (snd (Reconcile request w)) ->
  failure (cluster w) call = Some err ->
  exists err', fst (Reconcile request w) = (emptyResult, Some err').
Proof.
  intros Hin Hfail.
  destruct (failed_call_returns_an_error request w call err Hin Hfail)
    as [err' [Hres _]].
  exists err'. exact Hres.
Qed.

End Controller.

(** ** Reconciling again

    Two reconciliations of the same request, the second at a later time:
    the collaborators of the second ([r'], the primed probes) need not be
    those of the first, and the cluster may have moved on. *)

Section ReconcileAgain.
Context {K AwsClient : Type}.
Variables creation passthrough : AwsClient -> bool * option error.
Variables creation' passthrough' : AwsClient -> bool * option error.
Variables r r' : ReconcileCloudCredSecret K AwsClient.



End ReconcileAgain.

(** ** The properties on the test doubles *)

(** With the full secret stored, any built client is probed. *)
Lemma fullSecret_probed (aws : FakeAws) (updateErr : option error) :
  Probed (fakeReconciler testInfra (Ok aws) updateErr)
    rootRequest (clusterWith fullSecret) fullSecret aws.
Proof.
  apply (probed _ _ _ _ _ (bytes_of "AKIA") (bytes_of "s3cr3t")
           {| InfrastructureName := "test-cluster-x7k2p" |});
    vm_compute; reflexivity.
Defined.

(** C1, witness: the client may mint and pass through, the update succeeds:
    no error, and the passthrough probe is not called. *)
Lemma mint_true_writes_mint_witness :
  let out := Reconcile canMint canPassthrough (steady mintAndPassthrough)
               rootRequest (startWith fullSecret) in
  Probed (steady mintAndPassthrough) rootRequest (clusterWith fullSecret)
    fullSecret mintAndPassthrough
  /\ canMint mintAndPassthrough = (true, None)
  /\ canPassthrough mintAndPassthrough = (true, None)
  /\ writes (newCalls (startWith fullSecret) (snd out))
     = [annotated fullSecret MintAnnotation]
  /\ Forall (fun c => isPassthroughProbe c = false)
       (newCalls (startWith fullSecret) (snd out))
  /\ fst out = (emptyResult, None).
Proof.
  pose proof (mint_true_writes_mint canMint canPassthrough
                (steady mintAndPassthrough) rootRequest (startWith fullSecret)
                fullSecret mintAndPassthrough
                (fullSecret_probed mintAndPassthrough None) eq_refl) as H.
  cbv zeta in H. destruct H as (_ & Hwrites & _ & Hnone & _ & _ & Hok).
  cbv zeta.
  split; [apply fullSecret_probed | ].
  split; [reflexivity | ].
  split; [reflexivity | ].
  split; [exact Hwrites | ].
  split; [exact Hnone | ].
  apply Hok. vm_compute. reflexivity.
Defined.

(** C1, counterexample: the creation probe answers true, and the
    reconciliation returns an error, because the update is refused. *)
Lemma mint_true_refused_update_is_an_error :
  let out := Reconcile canMint canPassthrough (conflicting mintAndPassthrough)
               rootRequest (startWith fullSecret) in
  Probed (conflicting mintAndPassthrough) rootRequest (clusterWith fullSecret)
    fullSecret mintAndPassthrough
  /\ canMint mintAndPassthrough = (true, None)
  /\ snd (fst out) = Some "Conflict: the object has been modified"
  /\ snd (fst out) <> None.
Proof.
  cbv zeta.
  split; [apply fullSecret_probed | ].
  split; [reflexivity | ].
  split; [vm_compute; reflexivity | vm_compute; discriminate].
Qed.

(** With the half secret stored, the fetch finds it, and the secret access
    key is missing. *)
Lemma halfSecret_fetched (aws : FakeAws) (updateErr : option error) :
  Get (fakeReconciler testInfra (Ok aws) updateErr) rootRequest
    (clusterWith halfSecret) = Ok halfSecret.
Proof. vm_compute. reflexivity. Defined.

Lemma halfSecret_lacks_secret_key :
  Data halfSecret !! AwsSecretAccessKeyName = None.
Proof. vm_compute. reflexivity. Defined.

(** C2, witness: the secret access key is missing and the update
    succeeds: a fetch and one update, and no error. *)
Lemma missing_field_writes_insufficient_witness :
  let out := Reconcile canMint canPassthrough (steady mintAndPassthrough)
               rootRequest (startWith halfSecret) in
  Data halfSecret !! AwsSecretAccessKeyName = None
  /\ newCalls (startWith halfSecret) (snd out)
     = [CallGet rootRequest;
        CallUpdate (annotated halfSecret InsufficientAnnotation)]
  /\ fst out = (emptyResult, None).
Proof.
  pose proof (missing_field_writes_insufficient canMint canPassthrough
                (steady mintAndPassthrough) rootRequest (startWith halfSecret)
                halfSecret (halfSecret_fetched mintAndPassthrough None)
                (or_intror halfSecret_lacks_secret_key)) as H.
  cbv zeta in H. destruct H as (Hcalls & _ & _ & _ & Hok).
  cbv zeta.
  split; [exact halfSecret_lacks_secret_key | ].
  split; [exact Hcalls | ].
  apply Hok. vm_compute. reflexivity.
Defined.

(** C2, counterexample: the secret access key is missing, and the
    reconciliation returns an error, because the update is refused. *)
Lemma missing_field_refused_update_is_an_error :
  let out := Reconcile canMint canPassthrough (conflicting mintAndPassthrough)
               rootRequest (startWith halfSecret) in
  Get (conflicting mintAndPassthrough) rootRequest (clusterWith halfSecret)
    = Ok halfSecret
  /\ Data halfSecret !! AwsSecretAccessKeyName = None
  /\ snd (fst out) = Some "Conflict: the object has been modified"
  /\ snd (fst out) <> None.
Proof.
  cbv zeta.
  split; [apply halfSecret_fetched | ].
  split; [exact halfSecret_lacks_secret_key | ].
  split; [vm_compute; reflexivity | vm_compute; discriminate].
Qed.

(** C3, witness: the creation probe is refused with AccessDenied: one
    update with the mode insufficient, and the error returned is the
    context followed by AccessDenied. *)
Lemma probe_error_writes_insufficient_witness :
  let out := Reconcile canMint canPassthrough (steady mintDenied)
               rootRequest (startWith fullSecret) in
  Probed (steady mintDenied) rootRequest (clusterWith fullSecret)
    fullSecret mintDenied
  /\ ProbeFails canMint canPassthrough mintDenied
       "failed checking create cloud creds: " "AccessDenied"
  /\ writes (newCalls (startWith fullSecret) (snd out))
     = [annotated fullSecret InsufficientAnnotation]
  /\ fst out
     = (emptyResult,
        Some (Errorf "failed checking create cloud creds: " "AccessDenied")).
Proof.
  assert (Hfails : ProbeFails canMint canPassthrough mintDenied
                     "failed checking create cloud creds: " "AccessDenied")
    by (apply (creation_probe_fails _ _ _ false); reflexivity).
  pose proof (probe_error_writes_insufficient canMint canPassthrough
                (steady mintDenied) rootRequest (startWith fullSecret)
                fullSecret mintDenied _ _
                (fullSecret_probed mintDenied None) Hfails) as H.
  cbv zeta in H. destruct H as (Hwrites & _ & _ & Hres & _).
  cbv zeta.
  split; [apply fullSecret_probed | ].
  split; [exact Hfails | ].
  split; [exact Hwrites | exact Hres].
Defined.

(** C3, counterexample: the creation probe is refused with AccessDenied,
    and the error returned is not that error but a new one. *)
Lemma probe_error_returned_is_not_the_probe_error :
  let out := Reconcile canMint canPassthrough (steady mintDenied)
               rootRequest (startWith fullSecret) in
  Probed (steady mintDenied) rootRequest (clusterWith fullSecret)
    fullSecret mintDenied
  /\ canMint mintDenied = (false, Some "AccessDenied")
  /\ snd (fst out) = Some "failed checking create cloud creds: AccessDenied"
  /\ snd (fst out) <> Some "AccessDenied".
Proof.
  cbv zeta.
  split; [apply fullSecret_probed | ].
  split; [reflexivity | ].
  split; [vm_compute; reflexivity | vm_compute; discriminate].
Qed.

(** X16, witness: the update made for a missing field is refused, and the
    reconciliation returns an error. *)
Lemma failed_call_never_gives_success_witness :
  let r := conflicting mintAndPassthrough in
  let out := Reconcile canMint canPassthrough r
               rootRequest (startWith halfSecret) in
  let call := CallUpdate (annotated halfSecret InsufficientAnnotation) in
  call ∈ newCalls (startWith halfSecret) (snd out)
  /\ failure canMint canPassthrough r (clusterWith halfSecret) call
     = Some conflict
  /\ exists err', fst out = (emptyResult, Some err').
Proof.
  cbv zeta.
  assert (Hin :
    CallUpdate (annotated halfSecret InsufficientAnnotation)
    ∈ newCalls (startWith halfSecret)
        (snd (Reconcile canMint canPassthrough (conflicting mintAndPassthrough)
                rootRequest (startWith halfSecret)))).
  { apply list_elem_of_further, list_elem_of_here. }
  assert (Hfail :
    failure canMint canPassthrough (conflicting mintAndPassthrough)
      (cluster (startWith halfSecret))
      (CallUpdate (annotated halfSecret InsufficientAnnotation))
    = Some conflict) by reflexivity.
  split; [exact Hin | ].
  split; [exact Hfail | ].
  exact (failed_call_never_gives_success canMint canPassthrough
           (conflicting mintAndPassthrough) rootRequest
           (startWith halfSecret) _ _ Hin Hfail).
Defined.

(** C4, the failing input: the creation probe is refused and the update
    that follows is refused too.  The claim asks that the failure of this
    update be surfaced; the code loses it: the error returned does not
    report it, and the caller gets exactly the result and the log lines it
    gets when the update succeeds. *)
Lemma refused_update_after_probe_error_is_dropped :
  let r := conflicting mintDenied in
  let out := Reconcile canMint canPassthrough r
               rootRequest (startWith fullSecret) in
  let call := CallUpdate (annotated fullSecret InsufficientAnnotation) in
  call ∈ newCalls (startWith fullSecret) (snd out)
  /\ failure canMint canPassthrough r (clusterWith fullSecret) call
     = Some "Conflict: the object has been modified"
  /\ fst out
     = (emptyResult, Some "failed checking create cloud creds: AccessDenied")
  /\ ~ reports "Conflict: the object has been modified"
         "failed checking create cloud creds: AccessDenied"
  /\ fst out
     = fst (Reconcile canMint canPassthrough (steady mintDenied)
              rootRequest (startWith fullSecret))
  /\ logs (snd out)
     = logs (snd (Reconcile canMint canPassthrough (steady mintDenied)
                    rootRequest (startWith fullSecret))).
Proof.
  cbv zeta.
  split; [do 4 apply list_elem_of_further; apply list_elem_of_here | ].
  split; [reflexivity | ].
  split; [vm_compute; reflexivity | ].
  split; [ | split; vm_compute; reflexivity].
  intros Hreports. apply reports_endsWith in Hreports.
  vm_compute in Hreports. discriminate Hreports.
Qed.

(** C5, witness: both probes answer false and the update succeeds: one
    update with the mode insufficient, and no error. *)
Lemma both_false_writes_insufficient_witness :
  let out := Reconcile canMint canPassthrough (steady neither)
               rootRequest (startWith fullSecret) in
  Probed (steady neither) rootRequest (clusterWith fullSecret)
    fullSecret neither
  /\ canMint neither = (false, None)
  /\ canPassthrough neither = (false, None)
  /\ writes (newCalls (startWith fullSecret) (snd out))
     = [annotated fullSecret InsufficientAnnotation]
  /\ fst out = (emptyResult, None).
Proof.
  pose proof (both_false_writes_insufficient canMint canPassthrough
                (steady neither) rootRequest (startWith fullSecret)
                fullSecret neither
                (fullSecret_probed neither None) eq_refl eq_refl) as H.
  cbv zeta in H. destruct H as (Hwrites & _ & _ & _ & Hok).
  cbv zeta.
  split; [apply fullSecret_probed | ].
  split; [reflexivity | ].
  split; [reflexivity | ].
  split; [exact Hwrites | ].
  apply Hok. vm_compute. reflexivity.
Defined.

(** C5, counterexample: both probes answer false, and the reconciliation
    returns an error, because the update is refused. *)
Lemma both_false_refused_update_is_an_error :
  let out := Reconcile canMint canPassthrough (conflicting neither)
               rootRequest (startWith fullSecret) in
  Probed (conflicting neither) rootRequest (clusterWith fullSecret)
    fullSecret neither
  /\ canMint neither = (false, None)
  /\ canPassthrough neither = (false, None)
  /\ snd (fst out) = Some "Conflict: the object has been modified"
  /\ snd (fst out) <> None.
Proof.
  cbv zeta.
  split; [apply fullSecret_probed | ].
  split; [reflexivity | ].
  split; [reflexivity | ].
  split; [vm_compute; reflexivity | vm_compute; discriminate].
Qed.

(** X1, witness: the client may only pass through. *)
Lemma passthrough_true_writes_passthrough_witness :
  let out := Reconcile canMint canPassthrough (steady passthroughOnly)
               rootRequest (startWith fullSecret) in
  Probed (steady passthroughOnly) rootRequest (clusterWith fullSecret)
    fullSecret passthroughOnly
  /\ canMint passthroughOnly = (false, None)
  /\ canPassthrough passthroughOnly = (true, None)
  /\ writes (newCalls (startWith fullSecret) (snd out))
     = [annotated fullSecret PassthroughAnnotation]
  /\ fst out = (emptyResult, None).
Proof.
  pose proof (passthrough_true_writes_passthrough canMint canPassthrough
                (steady passthroughOnly) rootRequest (startWith fullSecret)
                fullSecret passthroughOnly
                (fullSecret_probed passthroughOnly None) eq_refl eq_refl) as H.
  cbv zeta in H. destruct H as (Hwrites & _ & _ & Hres).
  cbv zeta.
  split; [apply fullSecret_probed | ].
  split; [reflexivity | ].
  split; [reflexivity | ].
  split; [exact Hwrites | ].
  rewrite Hres. vm_compute. reflexivity.
Defined.

(** C6, witness: on an empty cluster the fetch fails, nothing is written
    and the cluster stays empty; with the full secret and a client that may
    mint there is one update, of the full secret annotated mint. *)
Lemma one_write_when_classified_none_before_witness :
  let r := steady mintAndPassthrough in
  let nowhere : World FakeCluster FakeAws := mkWorld ∅ [] [] in
  let lost := Reconcile canMint canPassthrough r rootRequest nowhere in
  let found := Reconcile canMint canPassthrough r rootRequest
                 (startWith fullSecret) in
  Scenario canMint canPassthrough r rootRequest ∅ NotFound
  /\ writes (newCalls nowhere (snd lost)) = []
  /\ cluster (snd lost) = ∅
  /\ (exists err, fst lost = (emptyResult, Some err))
  /\ Scenario canMint canPassthrough r rootRequest (clusterWith fullSecret)
       MintTrue
  /\ writes (newCalls (startWith fullSecret) (snd found))
     = [annotated fullSecret MintAnnotation]
  /\ length (writes (newCalls (startWith fullSecret) (snd found))) = 1.
Proof.
  cbv zeta.
  assert (Hlost : Scenario canMint canPassthrough (steady mintAndPassthrough)
                    rootRequest ∅ NotFound)
    by (apply (sc_not_found _ _ _ _ _ "secrets aws-creds not found");
        vm_compute; reflexivity).
  assert (Hfound : Scenario canMint canPassthrough (steady mintAndPassthrough)
                     rootRequest (clusterWith fullSecret) MintTrue)
    by (apply (sc_mint_true _ _ _ _ _ fullSecret mintAndPassthrough);
        [apply fullSecret_probed | reflexivity]).
  pose proof (one_write_when_classified_none_before canMint canPassthrough
                (steady mintAndPassthrough) rootRequest
                (mkWorld ∅ [] []) NotFound Hlost) as H0.
  pose proof (one_write_when_classified_none_before canMint canPassthrough
                (steady mintAndPassthrough) rootRequest
                (startWith fullSecret) MintTrue Hfound) as H1.
  cbv zeta in H0, H1. cbn [terminal] in H0, H1.
  destruct H0 as (Hnone & Hsame & call & err & err' & _ & _ & Hres & _).
  destruct H1 as (secret & value & Hget & Hverdict & Hwrites & Hone & _).
  assert (Hsecret : secret = fullSecret).
  { assert (Hfull : Get (steady mintAndPassthrough) rootRequest
                      (cluster (startWith fullSecret)) = Ok fullSecret)
      by (vm_compute; reflexivity).
    rewrite Hfull in Hget. injection Hget as <-. reflexivity. }
  assert (Hvalue : value = MintAnnotation)
    by (injection Hverdict as <-; reflexivity).
  subst secret value.
  split; [exact Hlost | ].
  split; [exact Hnone | ].
  split; [exact Hsame | ].
  split; [exists err'; exact Hres | ].
  split; [exact Hfound | ].
  split; [exact Hwrites | exact Hone].
Defined.

(** C9, witness: the object written for a client that may mint carries
    the mode mint. *)
Lemma written_mode_is_one_of_three_witness :
  let out := Reconcile canMint canPassthrough (steady mintAndPassthrough)
               rootRequest (startWith fullSecret) in
  let obj := annotated fullSecret MintAnnotation in
  obj ∈ writes (newCalls (startWith fullSecret) (snd out))
  /\ (annotation obj "cloudcredential.openshift.io/mode" = Some "mint"
      \/ annotation obj "cloudcredential.openshift.io/mode" = Some "passthrough"
      \/ annotation obj "cloudcredential.openshift.io/mode" = Some "insufficient").
Proof.
  cbv zeta.
  assert (Hin :
    annotated fullSecret MintAnnotation
    ∈ writes (newCalls (startWith fullSecret)
                (snd (Reconcile canMint canPassthrough
                        (steady mintAndPassthrough) rootRequest
                        (startWith fullSecret)))))
    by apply list_elem_of_here.
  split; [exact Hin | ].
  exact (written_mode_is_one_of_three canMint canPassthrough
           (steady mintAndPassthrough) rootRequest (startWith fullSecret)
           _ Hin).
Defined.



(** C7, witness: an update whose new object is the root secret is admitted,
    whatever the old object was; the deletion of another secret is not. *)
Lemma event_filter_admits_exactly_the_root_secret_witness :
  admits add_predicate (Updated (mkUpdateEvent otherMeta awsCredsMeta)) = true
  /\ admits add_predicate (Deleted (mkDeleteEvent otherMeta false)) <> true.
Proof.
  split.
  - apply (proj2 (event_filter_admits_exactly_the_root_secret
                    (Updated (mkUpdateEvent otherMeta awsCredsMeta)))).
    split; reflexivity.
  - intros Hadmitted.
    apply (proj2 (event_filter_admits_exactly_the_root_secret
                    (Deleted (mkDeleteEvent otherMeta false)))) in Hadmitted.
    destruct Hadmitted as [_ Hname]. discriminate Hname.
Defined.

(** C8, witness: a secret that is already annotated keeps the annotation
    of its owner, its labels and its data; only the mode changes. *)
Lemma updateSecretAnnotations_read_modify_write_witness :
  let obj := annotated labelledSecret InsufficientAnnotation in
  annotation labelledSecret AnnotationKey = Some "mint"
  /\ annotation obj AnnotationKey = Some "insufficient"
  /\ annotation obj "owner" = Some "installer"
  /\ Labels (secretMeta obj) = Some {[ "app" := "installer" ]}
  /\ Data obj = Data labelledSecret
  /\ calls (snd (updateSecretAnnotations (steady neither) labelledSecret
                   InsufficientAnnotation (startWith labelledSecret)))
     = [CallUpdate obj].
Proof.
  cbv zeta.
  destruct (updateSecretAnnotations_read_modify_write (steady neither)
              labelledSecret InsufficientAnnotation (startWith labelledSecret))
    as (Hrun & _ & _ & Hmode & Hother & _ & _ & _ & Hlabels & Hdata & _).
  split; [vm_compute; reflexivity | ].
  split; [exact Hmode | ].
  split; [rewrite (Hother "owner") by discriminate; vm_compute; reflexivity | ].
  split; [exact Hlabels | ].
  split; [exact Hdata | ].
  rewrite Hrun. reflexivity.
Defined.

(** ** The further properties on the test doubles *)

(** X3, witness: a client that may only pass through; the passthrough
    probe is called, and the creation probe had answered false. *)
Lemma passthrough_probe_only_after_creation_said_no_witness :
  let made := newCalls (startWith fullSecret)
                (snd (Reconcile canMint canPassthrough (steady passthroughOnly)
                        rootRequest (startWith fullSecret))) in
  CallCheckCloudCredPassthrough passthroughOnly ∈ made
  /\ canMint passthroughOnly = (false, None).
Proof.
  cbv zeta.
  assert (Hin :
    CallCheckCloudCredPassthrough passthroughOnly
    ∈ newCalls (startWith fullSecret)
        (snd (Reconcile canMint canPassthrough (steady passthroughOnly)
                rootRequest (startWith fullSecret))))
    by (do 4 apply list_elem_of_further; apply list_elem_of_here).
  destruct (passthrough_probe_only_after_creation_said_no
              canMint canPassthrough (steady passthroughOnly)
              rootRequest (startWith fullSecret) passthroughOnly Hin)
    as [Hno _].
  split; [exact Hin | exact Hno].
Defined.

(** X5, witness: the labelled secret, with a client that may do nothing:
    the object written has the data and the owner of the fetched secret. *)
Lemma writes_only_the_fetched_secret_witness :
  let obj := annotated labelledSecret InsufficientAnnotation in
  obj ∈ writes (newCalls (startWith labelledSecret)
                  (snd (Reconcile canMint canPassthrough (steady neither)
                          rootRequest (startWith labelledSecret))))
  /\ exists secret,
       Get (steady neither) rootRequest (clusterWith labelledSecret)
       = Ok secret
       /\ Data obj = Data secret
       /\ annotation obj "owner" = annotation secret "owner".
Proof.
  cbv zeta.
  assert (Hin :
    annotated labelledSecret InsufficientAnnotation
    ∈ writes (newCalls (startWith labelledSecret)
                (snd (Reconcile canMint canPassthrough (steady neither)
                        rootRequest (startWith labelledSecret)))))
    by apply list_elem_of_here.
  destruct (writes_only_the_fetched_secret canMint canPassthrough
              (steady neither) rootRequest (startWith labelledSecret) _ Hin)
    as (secret & Hget & _ & _ & _ & _ & Hdata & _ & _ & Hother).
  split; [exact Hin | ].
  exists secret.
  split; [exact Hget | ].
  split; [exact Hdata | ].
  apply Hother. discriminate.
Defined.

(** X6, witness: a client that may mint and a cluster that accepts the
    update: no error, so the update was made and accepted. *)
Lemma success_means_the_mode_was_accepted_witness :
  let out := Reconcile canMint canPassthrough (steady mintAndPassthrough)
               rootRequest (startWith fullSecret) in
  snd (fst out) = None
  /\ exists obj,
       writes (newCalls (startWith fullSecret) (snd out)) = [obj]
       /\ Update (steady mintAndPassthrough) obj (clusterWith fullSecret)
          = (cluster (snd out), None).
Proof.
  cbv zeta.
  assert (Hnone :
    snd (fst (Reconcile canMint canPassthrough (steady mintAndPassthrough)
                rootRequest (startWith fullSecret))) = None)
    by (vm_compute; reflexivity).
  destruct (proj1 (success_means_the_mode_was_accepted
                     canMint canPassthrough (steady mintAndPassthrough)
                     rootRequest (startWith fullSecret)) Hnone)
    as (obj & Hwrites & Hupdate & _).
  split; [exact Hnone | ].
  exists obj. split; [exact Hwrites | exact Hupdate].
Defined.

(** X7, witness: the secret is not there and the logger is at the info
    level, the default of logrus: the error returned is in no emitted
    line. *)
Lemma returned_error_and_the_logger_witness :
  let nowhere : World FakeCluster FakeAws := mkWorld ∅ [] [] in
  let out := Reconcile canMint canPassthrough (steady neither)
               rootRequest nowhere in
  snd (fst out) = Some "secrets aws-creds not found"
  /\ emitted 4 (newLogs nowhere (snd out))
     = [(LevelInfo, "validating cloud cred secret")]
  /\ last (emitted 5 (newLogs nowhere (snd out)))
     = Some (LevelDebug, "secret not found: secrets aws-creds not found").
Proof.
  cbv zeta.
  assert (Hres :
    snd (fst (Reconcile canMint canPassthrough (steady neither)
                rootRequest (mkWorld ∅ [] [])))
    = Some "secrets aws-creds not found")
    by (vm_compute; reflexivity).
  assert (Hget :
    Get (steady neither) rootRequest
      (cluster (mkWorld (∅ : FakeCluster) ([] : list (Call FakeAws)) []))
    = Err "secrets aws-creds not found")
    by (vm_compute; reflexivity).
  destruct (returned_error_and_the_logger canMint canPassthrough
              (steady neither) rootRequest (mkWorld ∅ [] []))
    as (_ & _ & Herr).
  specialize (Herr _ Hres). rewrite Hget in Herr.
  destruct Herr as (_ & Hdebug & Hbelow).
  split; [exact Hres | ].
  split; [rewrite (Hbelow 4) by lia; reflexivity | ].
  rewrite (Hdebug 5) by lia. reflexivity.
Defined.

(** X9, witness: the labelled secret already carries the mode mint. *)
Lemma updateSecretAnnotations_same_value_writes_the_secret_back_witness :
  annotation labelledSecret AnnotationKey = Some MintAnnotation
  /\ fst (fst (updateSecretAnnotations (steady neither) labelledSecret
                 MintAnnotation (startWith labelledSecret)))
     = labelledSecret.
Proof.
  assert (Hmode : annotation labelledSecret AnnotationKey = Some MintAnnotation)
    by (vm_compute; reflexivity).
  split; [exact Hmode | ].
  apply (updateSecretAnnotations_same_value_writes_the_secret_back
           (steady neither) labelledSecret MintAnnotation
           (startWith labelledSecret) Hmode).
Defined.


(** X11, witness: the half secret is refused for its missing secret
    access key. *)
Lemma LoadCredsFromSecret_errors_witness :
  Data halfSecret !! "aws_secret_access_key" = None
  /\ fst (LoadCredsFromSecret (steady neither) "kube-system" "aws-creds"
            (startWith halfSecret))
     = Err "AWS credentials secret aws-creds did not contain key aws_secret_access_key".
Proof.
  split; [exact halfSecret_lacks_secret_key | ].
  destruct (LoadCredsFromSecret_errors (steady neither)
              "kube-system" "aws-creds" (startWith halfSecret))
    as (_ & _ & _ & Hkey).
  cbv zeta in Hkey.
  rewrite (Hkey halfSecret (halfSecret_fetched neither None)
             (ex_intro _ (bytes_of "AKIA") eq_refl)
             halfSecret_lacks_secret_key).
  reflexivity.
Defined.

(** X12, witness: the full secret gives back its two fields. *)
Lemma LoadCredsFromSecret_returns_the_stored_bytes_witness :
  let creds := {| AccessKeyID := "AKIA"; SecretAccessKey := "s3cr3t";
                  SessionToken := ""; ProviderName := "" |} in
  fst (LoadCredsFromSecret (steady neither) "kube-system" "aws-creds"
         (startWith fullSecret)) = Ok creds
  /\ exists secret,
       Get (steady neither) rootRequest (clusterWith fullSecret) = Ok secret
       /\ Data secret !! "aws_access_key_id" = Some (bytes_of "AKIA")
       /\ Data secret !! "aws_secret_access_key" = Some (bytes_of "s3cr3t").
Proof.
  cbv zeta.
  assert (Hload :
    fst (LoadCredsFromSecret (steady neither) "kube-system" "aws-creds"
           (startWith fullSecret))
    = Ok {| AccessKeyID := "AKIA"; SecretAccessKey := "s3cr3t";
            SessionToken := ""; ProviderName := "" |})
    by (vm_compute; reflexivity).
  destruct (LoadCredsFromSecret_returns_the_stored_bytes (steady neither)
              "kube-system" "aws-creds" (startWith fullSecret) _ Hload)
    as (secret & Hget & Hid & Hkey & _).
  split; [exact Hload | ].
  exists secret.
  split; [exact Hget | ].
  split; [exact Hid | exact Hkey].
Defined.

(** X13, witness: the loader refuses the half secret, and the annotator
    marks it insufficient after the fetch alone. *)
Lemma LoadCredsFromSecret_agrees_with_the_annotator_witness :
  (exists err,
     fst (LoadCredsFromSecret (steady mintAndPassthrough)
            "kube-system" "aws-creds" (startWith halfSecret)) = Err err)
  /\ newCalls (startWith halfSecret)
       (snd (Reconcile canMint canPassthrough (steady mintAndPassthrough)
               rootRequest (startWith halfSecret)))
     = [CallGet rootRequest;
        CallUpdate (annotated halfSecret InsufficientAnnotation)].
Proof.
  assert (Hrefused :
    exists err,
      fst (LoadCredsFromSecret (steady mintAndPassthrough)
             "kube-system" "aws-creds" (startWith halfSecret)) = Err err)
    by (eexists; vm_compute; reflexivity).
  split; [exact Hrefused | ].
  destruct (LoadCredsFromSecret_agrees_with_the_annotator
              canMint canPassthrough (steady mintAndPassthrough)
              rootRequest (startWith halfSecret)) as [_ Hsame].
  cbv zeta in Hsame.
  apply (proj1 (Hsame halfSecret (halfSecret_fetched mintAndPassthrough None))).
  exact Hrefused.
Defined.

(** X14, witness: with kube-system as the namespace, the creation of the
    root secret is admitted. *)
Lemma aws_filter_admits_exactly_its_secret_witness :
  constants_CloudCredSecretNamespace firstLayoutImports = "kube-system"
  /\ admits (aws_Add_predicate firstLayoutImports)
       (Created (mkCreateEvent awsCredsMeta)) = true
  /\ admits (aws_Add_predicate firstLayoutImports)
       (Deleted (mkDeleteEvent otherMeta false))
     = admits add_predicate (Deleted (mkDeleteEvent otherMeta false)).
Proof.
  split; [reflexivity | ].
  split.
  - apply (proj1 (aws_filter_admits_exactly_its_secret firstLayoutImports
                    (Created (mkCreateEvent awsCredsMeta)))).
    split; reflexivity.
  - apply (proj2 (aws_filter_admits_exactly_its_secret firstLayoutImports
                    (Deleted (mkDeleteEvent otherMeta false)))).
    reflexivity.
Defined.

(** X15, witness: with the imports of the first layout the two
    controllers do the same on the full secret. *)
Lemma aws_Reconcile_is_Reconcile_witness :
  constants_AnnotationKey firstLayoutImports = AnnotationKey
  /\ aws_Reconcile (steady passthroughOnly) firstLayoutImports
       rootRequest (startWith fullSecret)
     = Reconcile canMint canPassthrough (steady passthroughOnly)
         rootRequest (startWith fullSecret).
Proof.
  split; [reflexivity | ].
  apply (aws_Reconcile_is_Reconcile canMint canPassthrough
           (steady passthroughOnly) firstLayoutImports);
    reflexivity.
Defined.
